(** * Strawberry toolserver starter: echo, token-gated echo and weather servers

    A shallow embedding of the three MCP tool servers of the repository
    (src/index-gated.ts holds the gated and the open echo server; PROMPT.md
    holds the same two and the weather server) and the properties of their
    list-tools and call-tool handlers.

    External code (the MCP SDK, the token-gate verifier, viem, zod, fetch,
    the JavaScript number type) is taken as a parameter of the development:
    a type class for numbers, function arguments for the verifier and the
    schemas, an oracle for the network. *)

From Stdlib Require Import Ascii.
From stdpp Require Import base strings gmap list pretty.

Open Scope string_scope.

(** ** JavaScript values and strings *)
Module Js.

(** The operations of the JavaScript number type the servers use.  Numbers
    are IEEE doubles in the source; the development does not look inside. *)
Class JsNumber (Num : Type) := {
  num_falsy : Num -> bool;        (* +0, -0 and NaN *)
  num_toString : Num -> string;   (* Number::toString, template literals *)
  num_toFixed4 : Num -> string;   (* n.toFixed(4) *)
  parseInt : string -> Num;
  parseFloat : string -> Num
}.

(** Scalar values: what a property read of a JSON argument object gives when
    the property is absent or bound to a JSON scalar.  The tools declare
    their arguments as strings and numbers; an argument bound to an array or
    an object is outside this model. *)
Inductive JsValue (Num : Type) : Type :=
  | JUndefined
  | JNull
  | JBool (b : bool)
  | JNum (n : Num)
  | JStr (s : string).
Arguments JUndefined {Num}.
Arguments JNull {Num}.
Arguments JBool {Num} b.
Arguments JNum {Num} n.
Arguments JStr {Num} s.

(** [s.includes(search)] *)
Fixpoint includes (s search : string) : bool :=
  String.prefix search s ||
  match s with
  | EmptyString => false
  | String _ s' => includes s' search
  end.

(** [l.join(sep)] on an array of strings *)
Fixpoint join (sep : string) (l : list string) : string :=
  match l with
  | [] => ""
  | [x] => x
  | x :: rest => x +:+ sep +:+ join sep rest
  end.

(** Truthiness of a string: [""] is the only falsy one. *)
Definition str_truthy (s : string) : bool :=
  match s with EmptyString => false | _ => true end.

(** [s || d] for an optional string property *)
Definition str_or (s : option string) (d : string) : string :=
  match s with
  | Some x => if str_truthy x then x else d
  | None => d
  end.

(** BigInt::toString and ToString of an integral number such as an HTTP
    status: decimal digits, with a leading minus sign below zero. *)
Definition int_toString (z : Z) : string := pretty z.

Section Values.
Context {Num : Type} `{!JsNumber Num}.

(** ToBoolean *)
Definition truthy (v : JsValue Num) : bool :=
  match v with
  | JUndefined | JNull => false
  | JBool b => b
  | JNum n => negb (num_falsy n)
  | JStr s => str_truthy s
  end.

(** [a || b] *)
Definition js_or (a b : JsValue Num) : JsValue Num :=
  if truthy a then a else b.

(** ToString, as applied by template literals and by [String(v)] *)
Definition ToString (v : JsValue Num) : string :=
  match v with
  | JUndefined => "undefined"
  | JNull => "null"
  | JBool true => "true"
  | JBool false => "false"
  | JNum n => num_toString n
  | JStr s => s
  end.
End Values.

End Js.

(** ** Effects: a console, exceptions *)
Module Eff.

Inductive Outcome (E A : Type) : Type :=
  | Returned (a : A)
  | Threw (e : E).
Arguments Returned {E A} a.
Arguments Threw {E A} e.

(** A computation over a world [W] that returns or throws. *)
Definition M (W E A : Type) : Type := W -> Outcome E A * W.

Definition ret {W E A} (a : A) : M W E A := fun w => (Returned a, w).

Definition throw {W E A} (e : E) : M W E A := fun w => (Threw e, w).

Definition bind {W E A B} (m : M W E A) (k : A -> M W E B) : M W E B :=
  fun w =>
    match m w with
    | (Returned a, w') => k a w'
    | (Threw e, w') => (Threw e, w')
    end.

(** [try { body } catch (error) { handler }]: the effects of [body] up to
    the throw stay. *)
Definition try_catch {W E A} (body : M W E A) (handler : E -> M W E A)
  : M W E A :=
  fun w =>
    match body w with
    | (Returned a, w') => (Returned a, w')
    | (Threw e, w') => handler e w'
    end.

Definition lift {W E A} (o : Outcome E A) : M W E A := fun w => (o, w).

Definition returns {E A} (o : Outcome E A) : bool :=
  match o with Returned _ => true | Threw _ => false end.

End Eff.

Declare Scope eff_scope.
Delimit Scope eff_scope with eff.
Notation "x <- m ;; k" := (Eff.bind m (fun x => k))
  (at level 90, m at next level, right associativity) : eff_scope.
Notation "m ;;; k" := (Eff.bind m (fun _ => k))
  (at level 90, right associativity) : eff_scope.

(** ** The MCP data the handlers exchange *)
Module Mcp.

Record PropertySchema := {
  prop_type : string;
  prop_description : string
}.

Record InputSchema := {
  schema_type : string;
  properties : list (string * PropertySchema);
  required : list string
}.

Record Tool := {
  tool_name : string;
  tool_description : string;
  inputSchema : InputSchema
}.

Record ListToolsResult := { tools : list Tool }.

Section Calls.
Context {Num : Type}.

(** [request.params] of a tools/call request *)
Record CallToolRequest := {
  name : string;
  arguments : option (gmap string (Js.JsValue Num))
}.

Record ContentBlock := {
  type : string;
  text : Js.JsValue Num
}.

Record CallToolResult := { content : list ContentBlock }.

(** [request.params.arguments?.[key]] *)
Definition argument (key : string) (request : CallToolRequest)
  : Js.JsValue Num :=
  match arguments request with
  | Some args => default Js.JUndefined (args !! key)
  | None => Js.JUndefined
  end.

(** A result made of one text block. *)
Definition one_text_block (r : CallToolResult) : bool :=
  match content r with
  | [b] => String.eqb (type b) "text"
  | _ => false
  end.
End Calls.
Arguments CallToolRequest Num : clear implicits.
Arguments ContentBlock Num : clear implicits.
Arguments CallToolResult Num : clear implicits.

End Mcp.

(** ** The Node.js process: console, exit status, exceptions, HTTP history *)
Module Node.

(** One issue of a zod validation error: [{ path, message }]. *)
Inductive PathElem := Key (k : string) | Index (i : N).

Record ZodIssue := {
  path : list PathElem;
  issue_message : string
}.

(** A thrown value: an [Error] instance with its [message] (a [z.ZodError]
    when it carries issues), or any scalar. *)
Inductive Thrown (Num : Type) : Type :=
  | ErrorObj (message : string) (zod : option (list ZodIssue))
  | Value (v : Js.JsValue Num).
Arguments ErrorObj {Num} message zod.
Arguments Value {Num} v.

(** [new Error(message)] *)
Definition Error {Num} (message : string) : Thrown Num :=
  ErrorObj message None.

(** What [console.log] and [console.error] are given. *)
#[warning="-register-all"] Inductive LogArg (Num : Type) : Type :=
  | LVal (v : Js.JsValue Num)
  | LBigInt (z : Z)
  | LThrown (e : Thrown Num)
  | LField (key : string) (v : LogArg Num)
  | LObject (fields : list (LogArg Num)).
Arguments LVal {Num} v.
Arguments LBigInt {Num} z.
Arguments LThrown {Num} e.
Arguments LField {Num} key v.
Arguments LObject {Num} fields.

Inductive Stream := Stdout | Stderr.

Record ConsoleEntry (Num : Type) := {
  stream : Stream;
  args : list (LogArg Num)
}.
Arguments stream {Num} _.
Arguments args {Num} _.

(** The part of the process state the programs act on. *)
Record Process (Num : Type) := {
  console : list (ConsoleEntry Num);   (* oldest first *)
  exit_code : option Z;                (* [None] while running *)
  fetched : list string                (* URLs given to [fetch], oldest first *)
}.
Arguments console {Num} _.
Arguments exit_code {Num} _.
Arguments fetched {Num} _.

Section Ops.
Context {Num : Type}.

Definition Task (A : Type) : Type := Eff.M (Process Num) (Thrown Num) A.

Definition write (s : Stream) (a : list (LogArg Num)) : Task unit :=
  fun p =>
    (Eff.Returned tt,
     {| console := console p ++ [ {| stream := s; args := a |} ];
        exit_code := exit_code p;
        fetched := fetched p |}).

(** [console.log(...a)] *)
Definition console_log (a : list (LogArg Num)) : Task unit := write Stdout a.

(** [console.error(...a)] *)
Definition console_error (a : list (LogArg Num)) : Task unit :=
  write Stderr a.

(** [process.exit(code)] *)
Definition process_exit (code : Z) : Task unit :=
  fun p =>
    (Eff.Returned tt,
     {| console := console p;
        exit_code := Some code;
        fetched := fetched p |}).

(** The text a string argument of the console carries. *)
Definition LStr (s : string) : LogArg Num := LVal (Js.JStr s).
End Ops.
Arguments Task Num A : clear implicits.

End Node.

(** ** The open echo server (second program of src/index-gated.ts, first
    example of PROMPT.md) *)
Module Echo.
Import Mcp.

(** The [tools] array of the list-tools handler. *)
Definition tools : list Tool :=
  [ {| tool_name := "echo";
       tool_description := "Echoes back whatever message you send";
       inputSchema :=
         {| schema_type := "object";
            properties :=
              [ ("message",
                 {| prop_type := "string";
                    prop_description := "Message to echo back" |}) ];
            required := ["message"] |} |} ].

Section Handlers.
Context {Num : Type} `{!Js.JsNumber Num}.

(** [server.setRequestHandler(ListToolsRequestSchema, async () => ...)] *)
Definition listTools : Node.Task Num ListToolsResult :=
  Eff.ret {| Mcp.tools := tools |}.

(** [server.setRequestHandler(CallToolRequestSchema, async (request) => ...)] *)
Definition callTool (request : CallToolRequest Num)
  : Node.Task Num (CallToolResult Num) :=
  Eff.ret
    {| content :=
         [ {| type := "text";
              text := Js.js_or (argument "message" request)
                               (Js.JStr "No message provided") |} ] |}.
End Handlers.

End Echo.

(** ** The token-gated echo server (first program of src/index-gated.ts) *)
Module GatedEcho.
Import Mcp.

Definition tools : list Tool :=
  [ {| tool_name := "echo";
       tool_description :=
         "Token-gated echo service - requires 1 token to use";
       inputSchema :=
         {| schema_type := "object";
            properties :=
              [ ("message",
                 {| prop_type := "string";
                    prop_description := "Message to echo back" |});
                ("strawberry_signature",
                 {| prop_type := "string";
                    prop_description :=
                      "EIP-712 signature of the request parameters" |}) ];
            required := ["message"; "strawberry_signature"] |} |} ].

(** What the verifier resolves to: [{ signerAddress, balance }], an address
    string and a bigint. *)
Record Verified := {
  signerAddress : string;
  balance : Z
}.

(** The argument of [createPublicClient]. *)
Record ClientConfig := {
  chain : string;        (* the imported chain constant *)
  transport : string     (* the URL given to [http] *)
}.

Section Server.
Context {Num : Type} `{!Js.JsNumber Num}.

Record Domain := {
  domain_name : string;
  domain_version : string;
  chainId : Num
}.

Record VerifierOptions := {
  domain : Domain;
  tokenAddress : option string;   (* [process.env.LOCALHOST_TOKEN] *)
  minTokenBalance : Z
}.

(** The function [createTokenGateVerifier] returns: it resolves to the
    verified identity or rejects. *)
Definition Verifier : Type :=
  CallToolRequest Num -> Node.Task Num Verified.

(** [error?.message] *)
Definition message_of (error : Node.Thrown Num) : Js.JsValue Num :=
  match error with
  | Node.ErrorObj m _ => Js.JStr m
  | Node.Value _ => Js.JUndefined
  end.

Definition listTools : Node.Task Num ListToolsResult :=
  Eff.ret {| Mcp.tools := tools |}.

(** The call-tool handler: the verifier call and the reply are inside
    [try], the [catch] throws a new [Error]. *)
Definition callTool (verifier : Verifier) (request : CallToolRequest Num)
  : Node.Task Num (CallToolResult Num) :=
  Eff.try_catch
    (v <- verifier request ;;
     Eff.ret
       {| content :=
            [ {| type := "text";
                 text :=
                   Js.JStr
                     ("Message from " +:+ signerAddress v
                      +:+ " (balance: " +:+ Js.int_toString (balance v)
                      +:+ "): "
                      +:+ Js.ToString
                            (Js.js_or (argument "message" request)
                                      (Js.JStr "No message provided")))
              |} ] |})%eff
    (fun error =>
       Eff.throw
         (Node.Error
            ("Access denied: "
             +:+ Js.ToString
                   (Js.js_or (message_of error)
                             (Js.JStr "Unknown error"))))).

(** The server object: its identity and the two registered handlers. *)
Record Server := {
  server_name : string;
  server_version : string;
  on_listTools : Node.Task Num ListToolsResult;
  on_callTool : CallToolRequest Num -> Node.Task Num (CallToolResult Num)
}.

(** The option object logged by [createServer], as the console gets it. *)
Definition log_options (o : VerifierOptions) : Node.LogArg Num :=
  Node.LObject
    [ Node.LField "domain"
        (Node.LObject
           [ Node.LField "name" (Node.LStr (domain_name (domain o)));
             Node.LField "version" (Node.LStr (domain_version (domain o)));
             Node.LField "chainId"
               (Node.LVal (Js.JNum (chainId (domain o)))) ]);
      Node.LField "tokenAddress"
        (Node.LVal (from_option Js.JStr Js.JUndefined (tokenAddress o)));
      Node.LField "minTokenBalance" (Node.LBigInt (minTokenBalance o)) ].

Section CreateServer.
(** The two library constructors [createServer] calls. *)
Context {Client : Type}.
Variable createPublicClient :
  ClientConfig -> Eff.Outcome (Node.Thrown Num) Client.
Variable createTokenGateVerifier :
  Client -> VerifierOptions -> Eff.Outcome (Node.Thrown Num) Verifier.

(** The options built from [process.env]. *)
Definition verifierOptions (env : gmap string string) : VerifierOptions :=
  {| domain :=
       {| domain_name := "Strawberry.fun";
          domain_version := "1";
          chainId :=
            Js.parseInt (Js.str_or (env !! "STRAWBERRY_NETWORK_ID") "1") |};
     tokenAddress := env !! "LOCALHOST_TOKEN";
     minTokenBalance := 1 |}.

Definition clientConfig (env : gmap string string) : ClientConfig :=
  {| chain := "baseSepolia";
     transport := Js.str_or (env !! "RPC_URL") "https://sepolia.base.org" |}.

Definition createServer (env : gmap string string)
  : Node.Task Num Server :=
  (client <- Eff.lift (createPublicClient (clientConfig env)) ;;
   Node.console_log [log_options (verifierOptions env)] ;;;
   verifier <- Eff.lift
                 (createTokenGateVerifier client (verifierOptions env)) ;;
   Eff.ret
     {| server_name := "echo";
        server_version := "1.0.0";
        on_listTools := listTools;
        on_callTool := callTool verifier |})%eff.
End CreateServer.
End Server.
Arguments VerifierOptions Num : clear implicits.
Arguments Domain Num : clear implicits.
Arguments Server Num : clear implicits.
Arguments Verifier Num : clear implicits.

End GatedEcho.

(** ** The weather server (third example of PROMPT.md) *)
Module Weather.
Import Mcp.

(** Base URL for the National Weather Service API *)
Definition NWS_API_BASE : string := "https://api.weather.gov".

(** Base URL for the OpenStreetMap Nominatim API *)
Definition NOMINATIM_API_BASE : string := "https://nominatim.openstreetmap.org".

(** The line feed of the template literals. *)
Definition nl : string := String "010"%char "".

Definition tools : list Tool :=
  [ {| tool_name := "get-forecast";
       tool_description :=
         "Get weather forecast for a location in the US using coordinates";
       inputSchema :=
         {| schema_type := "object";
            properties :=
              [ ("latitude",
                 {| prop_type := "number";
                    prop_description := "Latitude of the location" |});
                ("longitude",
                 {| prop_type := "number";
                    prop_description := "Longitude of the location" |}) ];
            required := ["latitude"; "longitude"] |} |};
    {| tool_name := "get-forecast-by-name";
       tool_description :=
         "Get weather forecast for a location in the US using its name";
       inputSchema :=
         {| schema_type := "object";
            properties :=
              [ ("location",
                 {| prop_type := "string";
                    prop_description :=
                      "Name of the location (e.g. 'New York City' or 'Los Angeles, CA')" |}) ];
            required := ["location"] |} |} ].

(** interface PointsResponse; the code reads [properties?.forecast]. *)
Record PointsProperties := { forecast : option string }.
Record PointsResponse := { points_properties : option PointsProperties }.

(** interface GeocodingResponse *)
Record GeocodingResponse := {
  lat : string;
  lon : string;
  display_name : string
}.

(** What [fetch] resolves to: [ok], [status] and the outcome of [json()],
    whose [None] is the JSON value null. *)
Record HttpResponse (E T : Type) := {
  ok : bool;
  status : Z;
  json : Eff.Outcome E (option T)
}.
Arguments ok {E T} _.
Arguments status {E T} _.
Arguments json {E T} _.

Section Server.
Context {Num : Type} `{!Js.JsNumber Num}.

(** interface ForecastPeriod *)
Record ForecastPeriod := {
  period_name : option string;
  temperature : option Num;
  temperatureUnit : option string;
  windSpeed : option string;
  windDirection : option string;
  shortForecast : option string
}.

(** interface ForecastResponse; the code reads [properties?.periods || []]. *)
Record ForecastProperties := { periods : option (list ForecastPeriod) }.
Record ForecastResponse := { forecast_properties : option ForecastProperties }.

(** The network: what a [fetch] of a URL gives after the earlier fetches;
    a rejection of the promise is a thrown value. *)
Definition Net (T : Type) : Type :=
  list string -> string ->
  Eff.Outcome (Node.Thrown Num) (HttpResponse (Node.Thrown Num) T).

(** [await fetch(url, { headers })] *)
Definition fetch {T} (net : Net T) (url : string)
  : Node.Task Num (HttpResponse (Node.Thrown Num) T) :=
  fun p =>
    (net (Node.fetched p) url,
     {| Node.console := Node.console p;
        Node.exit_code := Node.exit_code p;
        Node.fetched := Node.fetched p ++ [url] |}).

(** A failed HTTP call: the promise of [fetch] rejects, the response is
    not [ok], or its body does not parse. *)
Definition http_failed {T}
  (o : Eff.Outcome (Node.Thrown Num) (HttpResponse (Node.Thrown Num) T))
  : bool :=
  match o with
  | Eff.Threw _ => true
  | Eff.Returned response =>
      negb (ok response) || negb (Eff.returns (json response))
  end.

(** The process after a fetch of [url] whose failure was logged under
    [label]. *)
Definition after_logged_failure (label url : string) (e : Node.Thrown Num)
  (p : Node.Process Num) : Node.Process Num :=
  {| Node.console :=
       Node.console p
       ++ [ {| Node.stream := Node.Stderr;
               Node.args := [Node.LStr label; Node.LThrown e] |} ];
     Node.exit_code := Node.exit_code p;
     Node.fetched := Node.fetched p ++ [url] |}.

(** The URL of the grid point request, as [getForecastForCoordinates]
    builds it. *)
Definition points_url (latitude longitude : Num) : string :=
  NWS_API_BASE +:+ "/points/" +:+ Js.num_toFixed4 latitude +:+ ","
  +:+ Js.num_toFixed4 longitude.

(** The URL of the geocoding request, as [geocodeLocation] builds it from
    the encoded location. *)
Definition geocode_url (encoded : string) : string :=
  NOMINATIM_API_BASE +:+ "/search?q=" +:+ encoded +:+ "&format=json&limit=1".

(** A tool response of one text block. *)
Definition text_response (t : string) : CallToolResult Num :=
  {| content := [ {| type := "text"; text := Js.JStr t |} ] |}.

Definition makeNWSRequest {T} (net : Net T) (url : string)
  : Node.Task Num (option T) :=
  Eff.try_catch
    (response <- fetch net url ;;
     if negb (ok response)
     then Eff.throw
            (Node.Error
               ("HTTP error! status: " +:+ Js.int_toString (status response)))
     else Eff.lift (json response))%eff
    (fun error =>
       (Node.console_error
          [Node.LStr "Error making NWS request:"; Node.LThrown error] ;;;
        Eff.ret None)%eff).

(** [period.temperature || "Unknown"] inside the template literal *)
Definition temperature_text (t : option Num) : string :=
  match t with
  | Some n => if Js.num_falsy n then "Unknown" else Js.num_toString n
  | None => "Unknown"
  end.

(** The callback of [periods.map]. *)
Definition format_period (period : ForecastPeriod) : string :=
  Js.join nl
    [ Js.str_or (period_name period) "Unknown" +:+ ":";
      "Temperature: " +:+ temperature_text (temperature period) +:+ "Â°"
        +:+ Js.str_or (temperatureUnit period) "F";
      "Wind: " +:+ Js.str_or (windSpeed period) "Unknown" +:+ " "
        +:+ Js.str_or (windDirection period) "";
      Js.str_or (shortForecast period) "No forecast available";
      "---" ].

Section Handlers.
Variable net_points : Net PointsResponse.
Variable net_forecast : Net ForecastResponse.
Variable net_geocode : Net (list GeocodingResponse).
(** [ForecastArgumentsSchema.parse] and [LocationArgumentsSchema.parse] *)
Variable ForecastArgumentsSchema_parse :
  option (gmap string (Js.JsValue Num)) ->
  Eff.Outcome (Node.Thrown Num) (Num * Num).
Variable LocationArgumentsSchema_parse :
  option (gmap string (Js.JsValue Num)) ->
  Eff.Outcome (Node.Thrown Num) string.
Variable encodeURIComponent : string -> Eff.Outcome (Node.Thrown Num) string.

Definition getForecastForCoordinates (latitude longitude : Num)
  : Node.Task Num (CallToolResult Num) :=
  let pointsUrl :=
    NWS_API_BASE +:+ "/points/" +:+ Js.num_toFixed4 latitude +:+ ","
    +:+ Js.num_toFixed4 longitude in
  (pointsData <- makeNWSRequest net_points pointsUrl ;;
   match pointsData with
   | None =>
       Eff.ret
         (text_response
            ("Failed to retrieve grid point data for coordinates: "
             +:+ Js.num_toString latitude +:+ ", "
             +:+ Js.num_toString longitude
             +:+ ". This location may not be supported by the NWS API (only US locations are supported)."))
   | Some pointsData =>
       let forecastUrl :=
         Js.str_or (points_properties pointsData ≫= forecast) "" in
       if negb (Js.str_truthy forecastUrl)
       then Eff.ret
              (text_response "Failed to get forecast URL from grid point data")
       else
         forecastData <- makeNWSRequest net_forecast forecastUrl ;;
         match forecastData with
         | None => Eff.ret (text_response "Failed to retrieve forecast data")
         | Some forecastData =>
             let periods :=
               default [] (forecast_properties forecastData ≫= periods) in
             if Nat.eqb (length periods) 0
             then Eff.ret (text_response "No forecast periods available")
             else
               let formattedForecast := map format_period periods in
               Eff.ret
                 (text_response
                    ("Forecast for " +:+ Js.num_toString latitude +:+ ", "
                     +:+ Js.num_toString longitude +:+ ":" +:+ nl +:+ nl
                     +:+ Js.join nl formattedForecast))
         end
   end)%eff.

Definition geocodeLocation (location : string)
  : Node.Task Num (option GeocodingResponse) :=
  (encoded <- Eff.lift (encodeURIComponent location) ;;
   let url :=
     NOMINATIM_API_BASE +:+ "/search?q=" +:+ encoded
     +:+ "&format=json&limit=1" in
   Eff.try_catch
     (response <- fetch net_geocode url ;;
      if negb (ok response)
      then Eff.throw
             (Node.Error
                ("HTTP error! status: "
                 +:+ Js.int_toString (status response)))
      else
        results <- Eff.lift (json response) ;;
        match results with
        | Some results => Eff.ret (head results)
        | None =>
            Eff.throw
              (Node.Error "Cannot read properties of null (reading '0')")
        end)
     (fun error =>
        Node.console_error
          [Node.LStr "Error geocoding location:"; Node.LThrown error] ;;;
        Eff.ret None))%eff.

(** [if (forecast.content?.[0]?.text) forecast.content[0].text = ...] *)
Definition with_location (g : GeocodingResponse)
  (c : list (ContentBlock Num)) : list (ContentBlock Num) :=
  match c with
  | b :: rest =>
      if Js.truthy (text b)
      then {| type := type b;
              text :=
                Js.JStr
                  ("Location: " +:+ display_name g +:+ nl +:+ nl
                   +:+ Js.ToString (text b)) |} :: rest
      else c
  | [] => c
  end.

Definition path_elem_toString (e : Node.PathElem) : string :=
  match e with
  | Node.Key k => k
  | Node.Index i => Js.int_toString (Z.of_N i)
  end.

(** [error.errors.map((e) => `${e.path.join(".")}: ${e.message}`).join(", ")] *)
Definition issues_text (issues : list Node.ZodIssue) : string :=
  Js.join ", "
    (map (fun e =>
            Js.join "." (map path_elem_toString (Node.path e))
            +:+ ": " +:+ Node.issue_message e)
         issues).

Definition callTool (request : CallToolRequest Num)
  : Node.Task Num (CallToolResult Num) :=
  let name := Mcp.name request in
  let args := arguments request in
  Eff.try_catch
    (if String.eqb name "get-forecast" then
       coordinates <- Eff.lift (ForecastArgumentsSchema_parse args) ;;
       forecast <- getForecastForCoordinates coordinates.1 coordinates.2 ;;
       Eff.ret {| content := content forecast |}
     else if String.eqb name "get-forecast-by-name" then
       location <- Eff.lift (LocationArgumentsSchema_parse args) ;;
       geocodingResult <- geocodeLocation location ;;
       match geocodingResult with
       | None =>
           Eff.ret
             (text_response
                ("Could not find coordinates for location: " +:+ location))
       | Some geocodingResult =>
           let latitude := Js.parseFloat (lat geocodingResult) in
           let longitude := Js.parseFloat (lon geocodingResult) in
           forecast <- getForecastForCoordinates latitude longitude ;;
           Eff.ret
             {| content := with_location geocodingResult (content forecast) |}
       end
     else Eff.throw (Node.Error ("Unknown tool: " +:+ name)))%eff
    (fun error =>
       match error with
       | Node.ErrorObj _ (Some issues) =>
           Eff.ret (text_response ("Invalid arguments: " +:+ issues_text issues))
       | Node.ErrorObj message None =>
           Eff.ret (text_response ("Error: " +:+ message))
       | Node.Value v =>
           Eff.ret (text_response ("Error: " +:+ Js.ToString v))
       end).

Definition listTools : Node.Task Num ListToolsResult :=
  Eff.ret {| Mcp.tools := tools |}.
End Handlers.
End Server.
Arguments ForecastPeriod Num : clear implicits.
Arguments ForecastResponse Num : clear implicits.
Arguments ForecastProperties Num : clear implicits.
Arguments Net Num T : clear implicits.

End Weather.

(** ** The three servers side by side *)
Module Servers.
Import Mcp.

Inductive Variant := EchoServer | GatedServer | WeatherServer.

(** The tool descriptors a server declares. *)
Definition declared (v : Variant) : list Tool :=
  match v with
  | EchoServer => Echo.tools
  | GatedServer => GatedEcho.tools
  | WeatherServer => Weather.tools
  end.

Definition declared_names (v : Variant) : list string :=
  map tool_name (declared v).

Section Handlers.
Context {Num : Type} `{!Js.JsNumber Num}.
Variable verifier : GatedEcho.Verifier Num.
Variable net_points : Weather.Net Num Weather.PointsResponse.
Variable net_forecast : Weather.Net Num (Weather.ForecastResponse Num).
Variable net_geocode : Weather.Net Num (list Weather.GeocodingResponse).
Variable ForecastArgumentsSchema_parse :
  option (gmap string (Js.JsValue Num)) ->
  Eff.Outcome (Node.Thrown Num) (Num * Num).
Variable LocationArgumentsSchema_parse :
  option (gmap string (Js.JsValue Num)) ->
  Eff.Outcome (Node.Thrown Num) string.
Variable encodeURIComponent : string -> Eff.Outcome (Node.Thrown Num) string.

(** The handler registered for [ListToolsRequestSchema]. *)
Definition listTools (v : Variant) : Node.Task Num ListToolsResult :=
  match v with
  | EchoServer => Echo.listTools
  | GatedServer => GatedEcho.listTools
  | WeatherServer => Weather.listTools
  end.

(** The handler registered for [CallToolRequestSchema]. *)
Definition callTool (v : Variant) (request : CallToolRequest Num)
  : Node.Task Num (CallToolResult Num) :=
  match v with
  | EchoServer => Echo.callTool request
  | GatedServer => GatedEcho.callTool verifier request
  | WeatherServer =>
      Weather.callTool net_points net_forecast net_geocode
        ForecastArgumentsSchema_parse LocationArgumentsSchema_parse
        encodeURIComponent request
  end.
End Handlers.

(** A response that tells the caller of a failure: each block is a text
    that opens the way the handlers of the repository open their failure
    texts. *)
Definition failure_text {Num} (t : Js.JsValue Num) : bool :=
  match t with
  | Js.JStr s =>
      String.prefix "Error: " s || String.prefix "Invalid arguments: " s
      || String.prefix "Access denied" s
  | _ => false
  end.

Definition reports_failure {Num} (r : CallToolResult Num) : bool :=
  match content r with
  | [] => false
  | blocks => forallb (fun b => failure_text (text b)) blocks
  end.

End Servers.

(** ** Process start: the top level of each program *)
Module Startup.
Import Servers.


Section Programs.
Context {Num App : Type}.
(** [strawberry(createServer)], [app.connect()] and the call
    [app.listen(port, callback)] return or throw; the socket then binds, or
    emits an [error] event no listener is registered for.  Once the socket
    is bound the library writes its own lines to the console and then calls
    the callback of the program. *)
Variable strawberry : Eff.Outcome (Node.Thrown Num) App.
Variable connect : App -> Eff.Outcome (Node.Thrown Num) unit.
Variable listen : App -> Z -> Eff.Outcome (Node.Thrown Num) unit.
Variable listen_lines : App -> Z -> list (Node.ConsoleEntry Num).
Variable bind_error : App -> Z -> option (Node.Thrown Num).
(** [await getPort({ port: portNumbers(3000, 3100) })] *)
Variable getPort : Eff.Outcome (Node.Thrown Num) Z.
(** What the runtime does with an exception nothing catches. *)
Variable uncaught : Node.Thrown Num -> Node.Process Num -> Node.Process Num.

(** A pending [app.listen(port, callback)]. *)
Record Listen := {
  listen_app : App;
  listen_port : Z;
  listen_callback : Node.Task Num unit
}.

(** The library writing [lines] to the console. *)
Definition library_writes (lines : list (Node.ConsoleEntry Num))
  : Node.Task Num unit :=
  fun p =>
    (Eff.Returned tt,
     {| Node.console := Node.console p ++ lines;
        Node.exit_code := Node.exit_code p;
        Node.fetched := Node.fetched p |}).

(** [app.listen(port, callback)]: the call returns or throws; what runs
    once the socket is bound is the library's own output followed by the
    callback. *)
Definition app_listen (app : App) (port : Z) (callback : Node.Task Num unit)
  : Node.Task Num Listen :=
  (Eff.lift (listen app port) ;;;
   Eff.ret {| listen_app := app;
              listen_port := port;
              listen_callback :=
                library_writes (listen_lines app port) ;;; callback |})%eff.

(** [main().catch((error) => { console.error(...); process.exit(1); })] *)
Definition fatal (error : Node.Thrown Num) : Node.Task Num (option Listen) :=
  (Node.console_error
     [Node.LStr "Fatal error in main():"; Node.LThrown error] ;;;
   Node.process_exit 1%Z ;;;
   Eff.ret None)%eff.

(** [async function main()] of the open echo server *)
Definition echo_main (app : App) : Node.Task Num Listen :=
  let port := 3000%Z in
  app_listen app port
    (Node.console_log
       [Node.LStr
          ("Echo server running on http://localhost:"
           +:+ Js.int_toString port)]).

Definition echo_program : Node.Task Num (option Listen) :=
  (app <- Eff.lift strawberry ;;
   Eff.lift (connect app) ;;;
   Eff.try_catch (l <- echo_main app ;; Eff.ret (Some l)) fatal)%eff.

(** The gated server has no [main]: all of it runs at top level. *)
Definition gated_program : Node.Task Num (option Listen) :=
  (app <- Eff.lift strawberry ;;
   Eff.lift (connect app) ;;;
   l <- app_listen app 3000%Z
          (Node.console_log
             [Node.LStr
                "Token-gated echo server running on http://localhost:3000"]) ;;
   Eff.ret (Some l))%eff.

(** [async function main()] of the weather server *)
Definition weather_main : Node.Task Num Listen :=
  (app <- Eff.lift strawberry ;;
   Eff.lift (connect app) ;;;
   port <- Eff.lift getPort ;;
   app_listen app port
     (Node.console_error
        [Node.LStr
           ("Weather MCP Server running on http://localhost:"
            +:+ Js.int_toString port)]))%eff.

Definition weather_program : Node.Task Num (option Listen) :=
  Eff.try_catch (l <- weather_main ;; Eff.ret (Some l))%eff fatal.

Definition program (v : Variant) : Node.Task Num (option Listen) :=
  match v with
  | EchoServer => echo_program
  | GatedServer => gated_program
  | WeatherServer => weather_program
  end.

(** The process from start until it listens or ends: an exception that
    leaves the program, and the [error] event of a socket that cannot bind,
    go to the runtime. *)
Definition node (script : Node.Task Num (option Listen))
  (p : Node.Process Num) : Node.Process Num :=
  match script p with
  | (Eff.Threw e, p') => uncaught e p'
  | (Eff.Returned None, p') => p'
  | (Eff.Returned (Some l), p') =>
      match bind_error (listen_app l) (listen_port l) with
      | Some e => uncaught e p'
      | None => (listen_callback l p').2
      end
  end.

(** The port a server listens on. *)
Definition port_of (v : Variant) : Eff.Outcome (Node.Thrown Num) Z :=
  match v with
  | WeatherServer => getPort
  | _ => Eff.Returned 3000%Z
  end.

(** No step of the start fails. *)
Definition starts (v : Variant) : bool :=
  match strawberry with
  | Eff.Returned app =>
      match connect app, port_of v with
      | Eff.Returned _, Eff.Returned port =>
          match listen app port, bind_error app port with
          | Eff.Returned _, None => true
          | _, _ => false
          end
      | _, _ => false
      end
  | Eff.Threw _ => false
  end.

(** The steps of a start, in the order the programs take them. *)
Inductive Step := Strawberry | Connect | GetPort | Listen_call | Bind.

(** The first step that fails, with the exception it throws or, for the
    socket, the [error] event it emits. *)
Definition first_failure (v : Variant) : option (Step * Node.Thrown Num) :=
  match strawberry with
  | Eff.Threw e => Some (Strawberry, e)
  | Eff.Returned app =>
      match connect app with
      | Eff.Threw e => Some (Connect, e)
      | Eff.Returned _ =>
          match port_of v with
          | Eff.Threw e => Some (GetPort, e)
          | Eff.Returned port =>
              match listen app port with
              | Eff.Threw e => Some (Listen_call, e)
              | Eff.Returned _ =>
                  match bind_error app port with
                  | Some e => Some (Bind, e)
                  | None => None
                  end
              end
          end
      end
  end.

End Programs.

End Startup.

(** ** Integers as numbers, to run the handlers on concrete requests *)
Module IntegerNumbers.

Fixpoint digits (acc : Z) (s : string) : Z :=
  match s with
  | EmptyString => acc
  | String c s' =>
      match Ascii.is_nat c with
      | Some d => digits (10 * acc + Z.of_nat d)%Z s'
      | None => acc
      end
  end.

#[export] Instance integers : Js.JsNumber Z := {|
  Js.num_falsy := Z.eqb 0%Z;
  Js.num_toString := pretty;
  Js.num_toFixed4 := fun z => pretty z +:+ ".0000";
  Js.parseInt := digits 0%Z;
  Js.parseFloat := digits 0%Z
|}.

(** A process that has just started. *)
Definition fresh : Node.Process Z :=
  {| Node.console := []; Node.exit_code := None; Node.fetched := [] |}.

End IntegerNumbers.

(** ** Concrete requests, verifiers and libraries *)
Module Samples.
Import Mcp IntegerNumbers.

(** [{ name, arguments: { message } }] *)
Definition echo_request (n m : string) : CallToolRequest Z :=
  {| name := n; arguments := Some {[ "message" := Js.JStr m ]} |}.

(** [{ name: "echo", arguments: {} }] *)
Definition bare_request : CallToolRequest Z :=
  {| name := "echo"; arguments := Some ∅ |}.

(** A verifier that resolves every request to one holder. *)
Definition accepting : GatedEcho.Verifier Z :=
  fun _ =>
    Eff.ret {| GatedEcho.signerAddress := "0xA11ce"; GatedEcho.balance := 5 |}.

(** A verifier that rejects every request for its balance. *)
Definition rejecting : GatedEcho.Verifier Z :=
  fun _ => Eff.throw (Node.Error "Insufficient token balance: 0 < 1").

(** A verifier whose rejection quotes what it was asked to verify. *)
Definition quoting : GatedEcho.Verifier Z :=
  fun request =>
    Eff.throw
      (Node.Error
         ("Invalid signature for "
          +:+ Js.ToString (argument "message" request))).

(** Library constructors that build a client from its configuration and a
    verifier that rejects for want of a token address. *)
Definition createPublicClient (c : GatedEcho.ClientConfig)
  : Eff.Outcome (Node.Thrown Z) GatedEcho.ClientConfig :=
  Eff.Returned c.

Definition createTokenGateVerifier (c : GatedEcho.ClientConfig)
  (o : GatedEcho.VerifierOptions Z)
  : Eff.Outcome (Node.Thrown Z) (GatedEcho.Verifier Z) :=
  Eff.Returned
    (match GatedEcho.tokenAddress o with
     | Some _ => accepting
     | None => fun _ => Eff.throw (Node.Error "Invalid token address")
     end).

(** A network that is down, and one whose servers answer 503. *)
Definition offline {T} : Weather.Net Z T :=
  fun _ _ => Eff.Threw (Node.Error "fetch failed").


(** A points endpoint that answers with a forecast URL. *)
Definition points_up : Weather.Net Z Weather.PointsResponse :=
  fun _ _ =>
    Eff.Returned
      {| Weather.ok := true;
         Weather.status := 200;
         Weather.json :=
           Eff.Returned
             (Some
                {| Weather.points_properties :=
                     Some
                       {| Weather.forecast :=
                            Some "https://api.weather.gov/gridpoints/TOP/31,80/forecast" |} |}) |}.

(** A forecast endpoint that answers with one period. *)
Definition forecast_up : Weather.Net Z (Weather.ForecastResponse Z) :=
  fun _ _ =>
    Eff.Returned
      {| Weather.ok := true;
         Weather.status := 200;
         Weather.json :=
           Eff.Returned
             (Some
                {| Weather.forecast_properties :=
                     Some
                       {| Weather.periods :=
                            Some
                              [ {| Weather.period_name := Some "Tonight";
                                   Weather.temperature := Some 54%Z;
                                   Weather.temperatureUnit := Some "F";
                                   Weather.windSpeed := Some "5 mph";
                                   Weather.windDirection := Some "NW";
                                   Weather.shortForecast := Some "Clear" |} ]
                       |} |}) |}.

(** Schemas that accept the declared argument types. *)
Definition parse_forecast (args : option (gmap string (Js.JsValue Z)))
  : Eff.Outcome (Node.Thrown Z) (Z * Z) :=
  match args ≫= (.!! "latitude"), args ≫= (.!! "longitude") with
  | Some (Js.JNum a), Some (Js.JNum b) => Eff.Returned (a, b)
  | _, _ =>
      Eff.Threw
        (Node.ErrorObj "invalid"
           (Some [ {| Node.path := [Node.Key "latitude"];
                      Node.issue_message := "Required" |} ]))
  end.

Definition parse_location (args : option (gmap string (Js.JsValue Z)))
  : Eff.Outcome (Node.Thrown Z) string :=
  match args ≫= (.!! "location") with
  | Some (Js.JStr l) => Eff.Returned l
  | _ =>
      Eff.Threw
        (Node.ErrorObj "invalid"
           (Some [ {| Node.path := [Node.Key "location"];
                      Node.issue_message := "Required" |} ]))
  end.

Definition encode (l : string) : Eff.Outcome (Node.Thrown Z) string :=
  Eff.Returned l.

(** [{ name: "get-forecast-by-name", arguments: { location } }] *)
Definition by_name_request (l : string) : CallToolRequest Z :=
  {| name := "get-forecast-by-name";
     arguments := Some {[ "location" := Js.JStr l ]} |}.

(** A runtime that prints the exception and ends the process with status 1,
    and start-up steps: all well, or a port that is taken. *)
Definition print_and_exit (e : Node.Thrown Z) (p : Node.Process Z)
  : Node.Process Z :=
  {| Node.console :=
       Node.console p
       ++ [ {| Node.stream := Node.Stderr; Node.args := [Node.LThrown e] |} ];
     Node.exit_code := Some 1%Z;
     Node.fetched := Node.fetched p |}.

Definition step_ok {A} (a : A) : Eff.Outcome (Node.Thrown Z) A :=
  Eff.Returned a.

Definition port_taken (app : unit) (port : Z) : option (Node.Thrown Z) :=
  Some (Node.Error "listen EADDRINUSE: address already in use").

End Samples.

(** ** What a run leaves behind in the process *)
Module Trace.

Section Trace.
Context {Num : Type}.

(** The line [console.error(label, error)] writes. *)
Definition stderr_line (label : string) (e : Node.Thrown Num)
  : Node.ConsoleEntry Num :=
  {| Node.stream := Node.Stderr;
     Node.args := [Node.LStr label; Node.LThrown e] |}.

(** The process after a fetch of [url] that logged nothing. *)
Definition after_fetch (url : string) (p : Node.Process Num)
  : Node.Process Num :=
  {| Node.console := Node.console p;
     Node.exit_code := Node.exit_code p;
     Node.fetched := Node.fetched p ++ [url] |}.

(** [p'] is [p] with the lines [logs] added to the console and the URLs
    [urls] added to the fetches, the exit status being the same. *)
Definition continues (p p' : Node.Process Num)
  (logs : list (Node.ConsoleEntry Num)) (urls : list string) : Prop :=
  Node.console p' = (Node.console p ++ logs)%list
  /\ Node.exit_code p' = Node.exit_code p
  /\ Node.fetched p' = (Node.fetched p ++ urls)%list.

(** The process after the catch clause of [main()] ran on [e]. *)
Definition after_fatal (e : Node.Thrown Num) (p : Node.Process Num)
  : Node.Process Num :=
  {| Node.console :=
       Node.console p ++ [stderr_line "Fatal error in main():" e];
     Node.exit_code := Some 1%Z;
     Node.fetched := Node.fetched p |}.

(** The line each program writes once it listens on [port]. *)
Definition readiness (v : Servers.Variant) (port : Z)
  : Node.ConsoleEntry Num :=
  match v with
  | Servers.EchoServer =>
      {| Node.stream := Node.Stdout;
         Node.args :=
           [Node.LStr "Echo server running on http://localhost:3000"] |}
  | Servers.GatedServer =>
      {| Node.stream := Node.Stdout;
         Node.args :=
           [Node.LStr
              "Token-gated echo server running on http://localhost:3000"] |}
  | Servers.WeatherServer =>
      {| Node.stream := Node.Stderr;
         Node.args :=
           [Node.LStr
              ("Weather MCP Server running on http://localhost:"
               +:+ Js.int_toString port)] |}
  end.

(** A forecast period with its temperature removed. *)
Definition without_temperature (q : Weather.ForecastPeriod Num)
  : Weather.ForecastPeriod Num :=
  {| Weather.period_name := Weather.period_name q;
     Weather.temperature := None;
     Weather.temperatureUnit := Weather.temperatureUnit q;
     Weather.windSpeed := Weather.windSpeed q;
     Weather.windDirection := Weather.windDirection q;
     Weather.shortForecast := Weather.shortForecast q |}.
End Trace.

(** An environment variable that is absent or set to the empty string. *)
Definition unset (env : gmap string string) (key : string) : Prop :=
  env !! key = None \/ env !! key = Some "".

End Trace.

(** ** More concrete networks and environments *)
Module MoreSamples.
Import Mcp IntegerNumbers Samples.

(** A geocoder that knows one place. *)
Definition geocoder_up : Weather.Net Z (list Weather.GeocodingResponse) :=
  fun _ _ =>
    Eff.Returned
      {| Weather.ok := true;
         Weather.status := 200;
         Weather.json :=
           Eff.Returned
             (Some
                [ {| Weather.lat := "39";
                     Weather.lon := "95";
                     Weather.display_name := "Topeka, Kansas" |} ]) |}.

(** Servers that answer 200 with the body [null]. *)
Definition null_body {T} : Weather.Net Z T :=
  fun _ _ =>
    Eff.Returned
      {| Weather.ok := true;
         Weather.status := 200;
         Weather.json := Eff.Returned None |}.

(** A points endpoint whose answer names no forecast. *)
Definition points_without_forecast : Weather.Net Z Weather.PointsResponse :=
  fun _ _ =>
    Eff.Returned
      {| Weather.ok := true;
         Weather.status := 200;
         Weather.json :=
           Eff.Returned
             (Some
                {| Weather.points_properties :=
                     Some {| Weather.forecast := Some "" |} |}) |}.

(** A forecast endpoint whose answer has no periods. *)
Definition forecast_empty : Weather.Net Z (Weather.ForecastResponse Z) :=
  fun _ _ =>
    Eff.Returned
      {| Weather.ok := true;
         Weather.status := 200;
         Weather.json :=
           Eff.Returned
             (Some {| Weather.forecast_properties := None |}) |}.

(** The period [forecast_up] answers with, and a freezing one. *)
Definition tonight : Weather.ForecastPeriod Z :=
  {| Weather.period_name := Some "Tonight";
     Weather.temperature := Some 54%Z;
     Weather.temperatureUnit := Some "F";
     Weather.windSpeed := Some "5 mph";
     Weather.windDirection := Some "NW";
     Weather.shortForecast := Some "Clear" |}.

Definition freezing : Weather.ForecastPeriod Z :=
  {| Weather.period_name := Some "Tonight";
     Weather.temperature := Some 0%Z;
     Weather.temperatureUnit := Some "C";
     Weather.windSpeed := None;
     Weather.windDirection := None;
     Weather.shortForecast := Some "Frost" |}.

(** An encoder that refuses its input. *)
Definition encode_fails (l : string) : Eff.Outcome (Node.Thrown Z) string :=
  Eff.Threw (Node.Error "URI malformed").

(** [{ name: "get-forecast", arguments: { latitude, longitude } }] *)
Definition coordinates_request (a b : Z) : CallToolRequest Z :=
  {| name := "get-forecast";
     arguments :=
       Some (<[ "latitude" := Js.JNum a ]> {[ "longitude" := Js.JNum b ]}) |}.

(** An environment with the three variables set to the empty string, and
    one with a stray variable. *)
Definition blank_env : gmap string string :=
  <[ "RPC_URL" := "" ]>
    (<[ "STRAWBERRY_NETWORK_ID" := "" ]> {[ "LOCALHOST_TOKEN" := "" ]}).

Definition stray_env : gmap string string := {[ "HOME" := "/root" ]}.

(** Start-up steps that throw. *)
Definition step_throws {A} (m : string) : Eff.Outcome (Node.Thrown Z) A :=
  Eff.Threw (Node.Error m).

(** A library whose [listen] announces the port once the socket is bound. *)
Definition library_lines (app : unit) (port : Z)
  : list (Node.ConsoleEntry Z) :=
  [ {| Node.stream := Node.Stdout;
       Node.args :=
         [Node.LStr ("Server running on port " +:+ Js.int_toString port)] |} ].


End MoreSamples.

(** * Properties *)

(** ** Strings *)
Module JsFacts.
Import Js.

Lemma prefix_app (a b : string) : String.prefix a (a +:+ b) = true.
Proof.
  induction a as [|c a IH]; simpl.
  - by destruct b.
  - destruct (Ascii.ascii_dec c c); [exact IH | congruence].
Qed.

Lemma prefix_split (a s : string) :
  String.prefix a s = true -> exists b, s = a +:+ b.
Proof.
  revert s. induction a as [|c a IH]; intros s H.
  - by exists s.
  - destruct s as [|d s]; simpl in H; [discriminate|].
    destruct (Ascii.ascii_dec c d) as [->|]; [|discriminate].
    destruct (IH s H) as [b ->]. by exists b.
Qed.

Lemma includes_prefix (s t : string) :
  String.prefix t s = true -> includes s t = true.
Proof. intros H. destruct s; cbn [includes]; by rewrite H. Qed.

Lemma includes_skip (pre s t : string) :
  includes s t = true -> includes (pre +:+ s) t = true.
Proof.
  intros H. induction pre as [|c pre IH]; [exact H|].
  change (includes (String c (pre +:+ s)) t = true).
  simpl. rewrite IH. apply orb_true_r.
Qed.

(** [s.includes(t)] holds of every string that has [t] inside. *)
Lemma includes_app (pre t post : string) :
  includes (pre +:+ t +:+ post) t = true.
Proof. apply includes_skip, includes_prefix, prefix_app. Qed.

Lemma includes_split (s t : string) :
  includes s t = true -> exists pre post, s = pre +:+ t +:+ post.
Proof.
  induction s as [|c s IH]; cbn [includes]; intros H.
  - rewrite orb_false_r in H. apply prefix_split in H as [b ->].
    by exists "", b.
  - apply orb_true_iff in H as [H|H].
    + apply prefix_split in H as [b ->]. by exists "", b.
    + destruct (IH H) as (pre & post & ->). by exists (String c pre), post.
Qed.

Lemma includes_refl (t : string) : includes t t = true.
Proof.
  apply includes_prefix.
  induction t as [|c t IH]; simpl; [done|].
  destruct (Ascii.ascii_dec c c); [exact IH | congruence].
Qed.

Lemma includes_end (pre t : string) : includes (pre +:+ t) t = true.
Proof. apply includes_skip, includes_refl. Qed.

Section Values.
Context {Num : Type} `{!JsNumber Num}.

(** [a || b] is [b] exactly when [a] is falsy. *)
Lemma js_or_falsy (a b : JsValue Num) : truthy a = false -> js_or a b = b.
Proof. unfold js_or. by intros ->. Qed.

Lemma js_or_truthy (a b : JsValue Num) : truthy a = true -> js_or a b = a.
Proof. unfold js_or. by intros ->. Qed.

(** The falsy scalars. *)
Lemma falsy_cases (v : JsValue Num) :
  truthy v = false <->
  v = JUndefined \/ v = JNull \/ v = JBool false
  \/ (exists n, v = JNum n /\ num_falsy n = true) \/ v = JStr "".
Proof.
  split.
  - destruct v as [ | | b | n | s ]; simpl; intros H; eauto.
    + subst b; eauto.
    + right; right; right; left. exists n. split; [done|].
      by destruct (num_falsy n).
    + destruct s; [eauto 6 | discriminate].
  - intros [-> | [-> | [-> | [(n & -> & Hn) | ->]]]]; simpl; try done.
    by rewrite Hn.
Qed.
End Values.

End JsFacts.

(** ** The two echo servers *)
Module EchoProps.
Import Mcp.

Section Handlers.
Context {Num : Type} `{!Js.JsNumber Num}.
Implicit Types (request : CallToolRequest Num) (p : Node.Process Num).

(** The open handler returns one text block, whatever the request, and
    leaves the process as it is. *)
Lemma echo_callTool_eq request p :
  Echo.callTool request p =
  (Eff.Returned
     {| content :=
          [ {| type := "text";
               text := Js.js_or (argument "message" request)
                                (Js.JStr "No message provided") |} ] |},
   p).
Proof. reflexivity. Qed.

(** The gated handler under a verifier that resolves. *)
Lemma gated_callTool_verified (verifier : GatedEcho.Verifier Num)
    request p v p' :
  verifier request p = (Eff.Returned v, p') ->
  GatedEcho.callTool verifier request p =
  (Eff.Returned
     {| content :=
          [ {| type := "text";
               text :=
                 Js.JStr
                   ("Message from " +:+ GatedEcho.signerAddress v
                    +:+ " (balance: "
                    +:+ Js.int_toString (GatedEcho.balance v) +:+ "): "
                    +:+ Js.ToString
                          (Js.js_or (argument "message" request)
                                    (Js.JStr "No message provided"))) |} ] |},
   p').
Proof.
  intros Hv. unfold GatedEcho.callTool, Eff.try_catch, Eff.bind.
  by rewrite Hv.
Qed.

(** The gated handler under a verifier that rejects. *)
Lemma gated_callTool_rejected (verifier : GatedEcho.Verifier Num)
    request p error p' :
  verifier request p = (Eff.Threw error, p') ->
  GatedEcho.callTool verifier request p =
  (Eff.Threw
     (Node.Error
        ("Access denied: "
         +:+ Js.ToString
               (Js.js_or (GatedEcho.message_of error)
                         (Js.JStr "Unknown error")))),
   p').
Proof.
  intros Hv. unfold GatedEcho.callTool, Eff.try_catch, Eff.bind.
  by rewrite Hv.
Qed.

(** A request without a [message] field reads as [undefined]. *)
Lemma argument_absent request :
  arguments request ≫= (.!! "message") = None ->
  argument "message" request = Js.JUndefined.
Proof.
  unfold argument. destruct (arguments request) as [args|]; simpl; [|done].
  by intros ->.
Qed.
End Handlers.

End EchoProps.

(** ** What the echo handlers answer *)
Module EchoClaims.
Import Mcp EchoProps.

Section Claims.
Context {Num : Type} `{!Js.JsNumber Num}.
Implicit Types (request : CallToolRequest Num) (p : Node.Process Num).
Implicit Types (verifier : GatedEcho.Verifier Num).

(** C4: every list-tools handler returns the statically declared tool
    descriptors of its server and leaves the process untouched, so every
    invocation gives the same answer; the open server declares one tool
    "echo" that requires ["message"], the gated server one tool "echo" that
    requires ["message"; "strawberry_signature"]. *)
Theorem listTools_static (v : Servers.Variant) p :
  Servers.listTools v p
    = (Eff.Returned {| tools := Servers.declared v |}, p)
  /\ map (fun t => (tool_name t, required (inputSchema t)))
         (Servers.declared Servers.EchoServer)
     = [("echo", ["message"])]
  /\ map (fun t => (tool_name t, required (inputSchema t)))
         (Servers.declared Servers.GatedServer)
     = [("echo", ["message"; "strawberry_signature"])].
Proof. by destruct v. Qed.

(** C5: when the verifier resolves to a signer address and a balance and
    the request carries a message string, the gated handler returns one text
    block whose text contains the address, the balance in decimal and the
    message. *)
Theorem gated_verified_text verifier request p v p' (m : string) :
  verifier request p = (Eff.Returned v, p') ->
  argument "message" request = Js.JStr m ->
  exists t,
    GatedEcho.callTool verifier request p
      = (Eff.Returned
           {| content := [ {| type := "text"; text := Js.JStr t |} ] |}, p')
    /\ Js.includes t (GatedEcho.signerAddress v) = true
    /\ Js.includes t (Js.int_toString (GatedEcho.balance v)) = true
    /\ Js.includes t m = true.
Proof.
  intros Hv Hm. eexists. split; [by apply gated_callTool_verified|].
  split; [|split].
  - apply JsFacts.includes_app.
  - do 2 apply JsFacts.includes_skip. apply JsFacts.includes_app.
  - rewrite Hm. unfold Js.js_or.
    destruct m as [|c m]; simpl Js.truthy; cbv iota.
    + by apply JsFacts.includes_prefix.
    + do 5 apply JsFacts.includes_skip. apply JsFacts.includes_refl.
Qed.

(** C1, amended: when the verifier rejects, the gated handler catches the
    failure and throws a new Error; it returns no result.  The message of
    that Error is "Access denied: " followed by the message of the verifier's
    error, or by "Unknown error" when that error has no non-empty message.
    The handler adds nothing of the request to it. *)
Theorem gated_rejection_rethrown verifier request p error p' :
  verifier request p = (Eff.Threw error, p') ->
  GatedEcho.callTool verifier request p
    = (Eff.Threw
         (Node.Error
            ("Access denied: "
             +:+ match error with
                 | Node.ErrorObj message _ =>
                     if Js.str_truthy message then message
                     else "Unknown error"
                 | Node.Value _ => "Unknown error"
                 end)),
       p').
Proof.
  intros Hv. rewrite (gated_callTool_rejected _ _ _ _ _ Hv).
  destruct error as [message zod|w]; [|done].
  unfold Js.js_or; simpl. by destruct (Js.str_truthy message).
Qed.

(** C6, amended: on a request without a message field the open handler
    returns the text "No message provided"; the gated handler, under a
    verifier that resolves, returns "Message from <signer> (balance:
    <balance>): No message provided". *)
Theorem absent_message_default verifier request p v p' :
  arguments request ≫= (.!! "message") = None ->
  verifier request p = (Eff.Returned v, p') ->
  Echo.callTool request p
    = (Eff.Returned
         {| content :=
              [ {| type := "text";
                   text := Js.JStr "No message provided" |} ] |}, p)
  /\ GatedEcho.callTool verifier request p
     = (Eff.Returned
          {| content :=
               [ {| type := "text";
                    text :=
                      Js.JStr
                        ("Message from " +:+ GatedEcho.signerAddress v
                         +:+ " (balance: "
                         +:+ Js.int_toString (GatedEcho.balance v)
                         +:+ "): No message provided") |} ] |}, p').
Proof.
  intros Habs Hv. apply argument_absent in Habs. split.
  - by rewrite echo_callTool_eq, Habs.
  - by rewrite (gated_callTool_verified _ _ _ _ _ Hv), Habs.
Qed.

(** C9, amended: on every falsy message value, the empty string among
    them, the default takes the place of the message: the open handler
    returns the text "No message provided", and the gated handler, under a
    verifier that resolves, returns "Message from <signer> (balance:
    <balance>): No message provided". *)
Theorem falsy_message_default verifier request p v p' :
  Js.truthy (argument "message" request) = false ->
  verifier request p = (Eff.Returned v, p') ->
  Echo.callTool request p
    = (Eff.Returned
         {| content :=
              [ {| type := "text";
                   text := Js.JStr "No message provided" |} ] |}, p)
  /\ GatedEcho.callTool verifier request p
     = (Eff.Returned
          {| content :=
               [ {| type := "text";
                    text :=
                      Js.JStr
                        ("Message from " +:+ GatedEcho.signerAddress v
                         +:+ " (balance: "
                         +:+ Js.int_toString (GatedEcho.balance v)
                         +:+ "): No message provided") |} ] |}, p').
Proof.
  intros Hf Hv. split.
  - by rewrite echo_callTool_eq, (JsFacts.js_or_falsy _ _ Hf).
  - by rewrite (gated_callTool_verified _ _ _ _ _ Hv),
         (JsFacts.js_or_falsy _ _ Hf).
Qed.
End Claims.

End EchoClaims.

(** ** The weather server *)
Module WeatherProps.
Import Mcp Weather.

Section Requests.
Context {Num : Type} `{!Js.JsNumber Num}.
Implicit Types (p : Node.Process Num) (url : string).

(** The helper never throws: it returns the parsed body or null. *)
Lemma makeNWSRequest_total {T} (net : Net Num T) url p :
  exists o p', makeNWSRequest net url p = (Eff.Returned o, p').
Proof.
  unfold makeNWSRequest, Eff.try_catch, Eff.bind, fetch.
  destruct (net (Node.fetched p) url) as [response|e]; [|by eauto].
  destruct (ok response); simpl; [|by eauto].
  unfold Eff.lift. destruct (json response); by eauto.
Qed.

(** On a failed call it logs the failure and returns null. *)
Lemma makeNWSRequest_failed {T} (net : Net Num T) url p :
  http_failed (net (Node.fetched p) url) = true ->
  exists e,
    makeNWSRequest net url p
    = (Eff.Returned None,
       after_logged_failure "Error making NWS request:" url e p).
Proof.
  unfold makeNWSRequest, Eff.try_catch, Eff.bind, fetch, http_failed.
  destruct (net (Node.fetched p) url) as [response|e]; [|by eauto].
  destruct (ok response); simpl; [|by eauto].
  unfold Eff.lift. destruct (json response); [done | by eauto].
Qed.

(** A call that does not fail gives its body and logs nothing. *)
Lemma makeNWSRequest_ok {T} (net : Net Num T) url p response body :
  net (Node.fetched p) url = Eff.Returned response ->
  ok response = true ->
  json response = Eff.Returned body ->
  makeNWSRequest net url p
  = (Eff.Returned body,
     {| Node.console := Node.console p;
        Node.exit_code := Node.exit_code p;
        Node.fetched := Node.fetched p ++ [url] |}).
Proof.
  intros Hnet Hok Hjson.
  unfold makeNWSRequest, Eff.try_catch, Eff.bind, fetch.
  rewrite Hnet, Hok. simpl. unfold Eff.lift. by rewrite Hjson.
Qed.
End Requests.

Section Handlers.
Context {Num : Type} `{!Js.JsNumber Num}.
Variable net_points : Net Num PointsResponse.
Variable net_forecast : Net Num (ForecastResponse Num).
Variable net_geocode : Net Num (list GeocodingResponse).
Variable ForecastArgumentsSchema_parse :
  option (gmap string (Js.JsValue Num)) ->
  Eff.Outcome (Node.Thrown Num) (Num * Num).
Variable LocationArgumentsSchema_parse :
  option (gmap string (Js.JsValue Num)) ->
  Eff.Outcome (Node.Thrown Num) string.
Variable encodeURIComponent : string -> Eff.Outcome (Node.Thrown Num) string.
Implicit Types (p : Node.Process Num) (request : CallToolRequest Num).

Abbreviation getForecast := (getForecastForCoordinates net_points net_forecast).
Abbreviation geocode := (geocodeLocation net_geocode encodeURIComponent).
Abbreviation handler :=
  (callTool net_points net_forecast net_geocode ForecastArgumentsSchema_parse
     LocationArgumentsSchema_parse encodeURIComponent).

(** Every path through [getForecastForCoordinates] returns one text
    block with a non-empty text. *)
Lemma getForecast_total latitude longitude p :
  exists t p',
    getForecast latitude longitude p = (Eff.Returned (text_response t), p')
    /\ Js.str_truthy t = true.
Proof.
  unfold getForecastForCoordinates, Eff.bind.
  destruct (makeNWSRequest_total net_points (points_url latitude longitude) p)
    as (pointsData & p1 & E1).
  unfold points_url in E1. rewrite E1.
  destruct pointsData as [pointsData|]; [|by eauto].
  destruct (Js.str_truthy (Js.str_or _ "")) eqn:Eurl; simpl; [|by eauto].
  match goal with
  | |- context [makeNWSRequest net_forecast ?u p1] =>
      destruct (makeNWSRequest_total net_forecast u p1)
        as (forecastData & p2 & E2); rewrite E2
  end.
  destruct forecastData as [forecastData|]; [|by eauto].
  destruct (length _ =? 0)%nat; by eauto.
Qed.



(** The geocoding helper on a failed call: logged, null. *)
Lemma geocode_failed location encoded p :
  encodeURIComponent location = Eff.Returned encoded ->
  http_failed (net_geocode (Node.fetched p) (geocode_url encoded)) = true ->
  exists e,
    geocode location p
    = (Eff.Returned None,
       after_logged_failure "Error geocoding location:"
         (geocode_url encoded) e p).
Proof.
  intros Henc Hf.
  unfold geocodeLocation, Eff.bind, Eff.try_catch, Eff.lift, fetch.
  rewrite Henc. unfold geocode_url, http_failed in Hf.
  destruct (net_geocode _ _) as [response|e]; [|by eauto].
  destruct (ok response); simpl in *; [|by eauto].
  destruct (json response); [done | by eauto].
Qed.

(** The geocoding helper throws only what [encodeURIComponent] throws. *)
Lemma geocode_outcome location p :
  match encodeURIComponent location with
  | Eff.Returned _ => exists g p', geocode location p = (Eff.Returned g, p')
  | Eff.Threw e => geocode location p = (Eff.Threw e, p)
  end.
Proof.
  unfold geocodeLocation, Eff.bind, Eff.try_catch, Eff.lift, fetch.
  destruct (encodeURIComponent location) as [encoded|e]; [|done].
  destruct (net_geocode _ _) as [response|e]; [|by eauto].
  destruct (ok response); simpl; [|by eauto].
  destruct (json response) as [[results|]|e]; by eauto.
Qed.

(** The catch clause of the handler turns every thrown value into one text
    block. *)
Lemma catch_clause_text (error : Node.Thrown Num) :
  exists t,
    match error with
    | Node.ErrorObj _ (Some issues) =>
        text_response ("Invalid arguments: " +:+ issues_text issues)
    | Node.ErrorObj message None => text_response ("Error: " +:+ message)
    | Node.Value v => text_response ("Error: " +:+ Js.ToString v)
    end = text_response (Num:=Num) t.
Proof. destruct error as [m [issues|]|v]; by eauto. Qed.

(** The handler returns on every request, and what it returns is one block
    of type "text". *)
Lemma callTool_total request p :
  exists r p',
    handler request p = (Eff.Returned r, p') /\ one_text_block r = true.
Proof.
  unfold callTool, Eff.try_catch.
  destruct (String.eqb (name request) "get-forecast").
  { unfold Eff.bind, Eff.lift.
    destruct (ForecastArgumentsSchema_parse _) as [[latitude longitude]|e].
    - simpl. destruct (getForecast_total latitude longitude p)
        as (t & p' & -> & _). by eauto.
    - destruct e as [m [issues|]|v]; by eauto. }
  destruct (String.eqb (name request) "get-forecast-by-name").
  { unfold Eff.bind at 1, Eff.lift at 1.
    destruct (LocationArgumentsSchema_parse _) as [location|e].
    - unfold Eff.bind at 1.
      pose proof (geocode_outcome location p) as Hg.
      destruct (encodeURIComponent location) as [encoded|e].
      + destruct Hg as (g & p1 & ->). destruct g as [g|]; [|by eauto].
        unfold Eff.bind.
        destruct (getForecast_total (Js.parseFloat (lat g))
                    (Js.parseFloat (lon g)) p1) as (t & p' & -> & Ht).
        do 2 eexists. split; [done|]. simpl. by rewrite Ht.
      + rewrite Hg. destruct e as [m [issues|]|v]; by eauto.
    - destruct e as [m [issues|]|v]; by eauto. }
  by eauto.
Qed.

(** A name that is neither of the two tools is answered in text. *)
Lemma callTool_unknown request p :
  name request <> "get-forecast" ->
  name request <> "get-forecast-by-name" ->
  handler request p
  = (Eff.Returned (text_response ("Error: Unknown tool: " +:+ name request)),
     p).
Proof.
  intros H1 H2. unfold callTool, Eff.try_catch.
  apply String.eqb_neq in H1, H2. by rewrite H1, H2.
Qed.

End Handlers.

End WeatherProps.

(** ** Failures of external calls, unknown tools, the shape of results *)
Module HandlerClaims.
Import Mcp Weather WeatherProps.

Section Claims.
Context {Num : Type} `{!Js.JsNumber Num}.
Variable verifier : GatedEcho.Verifier Num.
Variable net_points : Net Num PointsResponse.
Variable net_forecast : Net Num (ForecastResponse Num).
Variable net_geocode : Net Num (list GeocodingResponse).
Variable ForecastArgumentsSchema_parse :
  option (gmap string (Js.JsValue Num)) ->
  Eff.Outcome (Node.Thrown Num) (Num * Num).
Variable LocationArgumentsSchema_parse :
  option (gmap string (Js.JsValue Num)) ->
  Eff.Outcome (Node.Thrown Num) string.
Variable encodeURIComponent : string -> Eff.Outcome (Node.Thrown Num) string.
Implicit Types (p : Node.Process Num) (request : CallToolRequest Num).

Abbreviation getForecast := (getForecastForCoordinates net_points net_forecast).
Abbreviation geocode := (geocodeLocation net_geocode encodeURIComponent).
Abbreviation handler :=
  (Servers.callTool verifier net_points net_forecast net_geocode
     ForecastArgumentsSchema_parse LocationArgumentsSchema_parse
     encodeURIComponent).


(** C10: whatever a call-tool handler of the repository returns (open
    echo, gated echo, every branch of the weather server) carries a content
    array of exactly one block, whose type tag is "text". *)
Theorem returned_content_one_text_block (v : Servers.Variant) request p r p' :
  handler v request p = (Eff.Returned r, p') ->
  one_text_block r = true.
Proof.
  destruct v; simpl.
  - rewrite EchoProps.echo_callTool_eq. by intros [= <- _].
  - unfold GatedEcho.callTool, Eff.try_catch, Eff.bind.
    destruct (verifier request p) as [[w|e] q]; [|done].
    by intros [= <- _].
  - destruct (callTool_total net_points net_forecast net_geocode
                ForecastArgumentsSchema_parse LocationArgumentsSchema_parse
                encodeURIComponent request p) as (r0 & q & -> & Hr).
    by intros [= <- _].
Qed.

(** C2, amended: on a tool name that the server does not declare, the
    weather handler returns the one text block "Error: Unknown tool: <name>"
    and the open echo handler, which never looks at the tool name, returns
    its ordinary echo of the message; neither throws, and the process is
    left as it was. *)
Theorem undeclared_tool_answer (v : Servers.Variant) request p :
  v <> Servers.GatedServer ->
  name request ∉ Servers.declared_names v ->
  handler v request p
  = (Eff.Returned
       match v with
       | Servers.WeatherServer =>
           text_response ("Error: Unknown tool: " +:+ name request)
       | _ =>
           {| content :=
                [ {| type := "text";
                     text := Js.js_or (argument "message" request)
                                      (Js.JStr "No message provided") |} ] |}
       end,
     p).
Proof.
  intros Hv Hname. destruct v; [done | done |]. simpl.
  apply callTool_unknown.
  - intros E. apply Hname. rewrite E. apply list_elem_of_here.
  - intros E. apply Hname. rewrite E.
    apply list_elem_of_further, list_elem_of_here.
Qed.
End Claims.

End HandlerClaims.

(** ** Construction of the gated server and process start *)
Module BootClaims.
Import Mcp.

Section CreateServer.
Context {Num : Type} `{!Js.JsNumber Num} {Client : Type}.
Variable createPublicClient :
  GatedEcho.ClientConfig -> Eff.Outcome (Node.Thrown Num) Client.
Variable createTokenGateVerifier :
  Client -> GatedEcho.VerifierOptions Num ->
  Eff.Outcome (Node.Thrown Num) (GatedEcho.Verifier Num).

(** [createServer] reads nothing else of the environment than the three
    variables, and checks none of them: it throws only what one of the two
    library constructors throws. *)
Lemma createServer_outcome env p :
  match createPublicClient (GatedEcho.clientConfig env) with
  | Eff.Threw e =>
      GatedEcho.createServer createPublicClient createTokenGateVerifier env p
      = (Eff.Threw e, p)
  | Eff.Returned client =>
      let p' :=
        {| Node.console :=
             Node.console p
             ++ [ {| Node.stream := Node.Stdout;
                     Node.args :=
                       [GatedEcho.log_options (GatedEcho.verifierOptions env)]
                  |} ];
           Node.exit_code := Node.exit_code p;
           Node.fetched := Node.fetched p |} in
      match createTokenGateVerifier client (GatedEcho.verifierOptions env) with
      | Eff.Threw e =>
          GatedEcho.createServer createPublicClient createTokenGateVerifier
            env p
          = (Eff.Threw e, p')
      | Eff.Returned verifier =>
          GatedEcho.createServer createPublicClient createTokenGateVerifier
            env p
          = (Eff.Returned
               {| GatedEcho.server_name := "echo";
                  GatedEcho.server_version := "1.0.0";
                  GatedEcho.on_listTools := GatedEcho.listTools;
                  GatedEcho.on_callTool := GatedEcho.callTool verifier |},
             p')
      end
  end.
Proof.
  unfold GatedEcho.createServer, Eff.bind, Eff.lift.
  destruct (createPublicClient _) as [client|e]; [|done].
  simpl. by destruct (createTokenGateVerifier _ _) as [verifier|e].
Qed.

(** C3: with LOCALHOST_TOKEN absent from the environment, [createServer]
    checks nothing: it hands the library an option record whose token address
    is undefined and, given the client and the verifier the library
    constructors return, returns the server with the process still running.
    The missing address can only show when the verifier is used: a request
    the verifier rejects is then answered by a thrown "Access denied: ...". *)
Theorem createServer_without_token env client verifier p :
  env !! "LOCALHOST_TOKEN" = None ->
  createPublicClient (GatedEcho.clientConfig env) = Eff.Returned client ->
  createTokenGateVerifier client (GatedEcho.verifierOptions env)
    = Eff.Returned verifier ->
  GatedEcho.tokenAddress (GatedEcho.verifierOptions env) = None
  /\ exists server p',
       GatedEcho.createServer createPublicClient createTokenGateVerifier env p
         = (Eff.Returned server, p')
       /\ Node.exit_code p' = Node.exit_code p
       /\ GatedEcho.on_listTools server = GatedEcho.listTools
       /\ GatedEcho.on_callTool server = GatedEcho.callTool verifier
       /\ forall request q error q',
            verifier request q = (Eff.Threw error, q') ->
            exists m,
              GatedEcho.on_callTool server request q
              = (Eff.Threw (Node.Error ("Access denied: " +:+ m)), q').
Proof.
  intros Henv Hclient Hverifier. split; [exact Henv|].
  pose proof (createServer_outcome env p) as Hcs.
  rewrite Hclient in Hcs. simpl in Hcs. rewrite Hverifier in Hcs.
  do 2 eexists. split; [exact Hcs|]. repeat split.
  intros request q error q' Hrej. simpl.
  rewrite (EchoProps.gated_callTool_rejected _ _ _ _ _ Hrej). by eauto.
Qed.
End CreateServer.

Section Start.
Context {Num App : Type}.
Variable strawberry : Eff.Outcome (Node.Thrown Num) App.
Variable connect : App -> Eff.Outcome (Node.Thrown Num) unit.
Variable listen : App -> Z -> Eff.Outcome (Node.Thrown Num) unit.
Variable listen_lines : App -> Z -> list (Node.ConsoleEntry Num).
Variable bind_error : App -> Z -> option (Node.Thrown Num).
Variable getPort : Eff.Outcome (Node.Thrown Num) Z.
Variable uncaught : Node.Thrown Num -> Node.Process Num -> Node.Process Num.
Implicit Types (p : Node.Process Num) (v : Servers.Variant).

Abbreviation run v :=
  (Startup.node bind_error uncaught
     (Startup.program strawberry connect listen listen_lines getPort v)).


(** A start without fault leaves the process running. *)
Lemma started_runs v p :
  Startup.starts strawberry connect listen bind_error getPort v = true ->
  Node.exit_code (run v p) = Node.exit_code p.
Proof.
  unfold Startup.starts, Startup.node, Startup.port_of.
  destruct v; simpl;
    unfold Startup.echo_program, Startup.gated_program,
      Startup.weather_program, Startup.weather_main, Startup.echo_main,
      Startup.app_listen, Eff.try_catch, Eff.bind, Eff.lift;
    (destruct strawberry as [app|e]; [|done]);
    (destruct (connect app) as [[]|e]; [|done]).
  - destruct (listen app 3000) as [[]|e]; [|done]. simpl.
    by destruct (bind_error app 3000).
  - destruct (listen app 3000) as [[]|e]; [|done]. simpl.
    by destruct (bind_error app 3000).
  - destruct getPort as [port|e]; [|done].
    destruct (listen app port) as [[]|e]; [|done]. simpl.
    by destruct (bind_error app port).
Qed.

(** A start fails exactly when one of its steps does. *)
Lemma starts_no_failure v :
  Startup.starts strawberry connect listen bind_error getPort v = true
  <-> Startup.first_failure strawberry connect listen bind_error getPort v
      = None.
Proof.
  unfold Startup.starts, Startup.first_failure.
  destruct strawberry as [app|e]; [|done].
  destruct (connect app) as [[]|e]; [|done].
  destruct (Startup.port_of getPort v) as [port|e]; [|done].
  destruct (listen app port) as [[]|e]; [|done].
  by destruct (bind_error app port).
Qed.

End Start.

End BootClaims.

(** ** The handlers on concrete requests *)
Module Instances.
Import Mcp IntegerNumbers Samples.

(** The open echo server returns the message it is sent. *)
Example echo_hello :
  Echo.callTool (echo_request "echo" "hello") fresh
  = (Eff.Returned
       {| content := [ {| type := "text"; text := Js.JStr "hello" |} ] |},
     fresh).
Proof. reflexivity. Qed.

(** The gated echo server names the signer and the balance. *)
Example gated_hello :
  GatedEcho.callTool accepting (echo_request "echo" "hello") fresh
  = (Eff.Returned
       {| content :=
            [ {| type := "text";
                 text :=
                   Js.JStr "Message from 0xA11ce (balance: 5): hello" |} ] |},
     fresh).
Proof. reflexivity. Qed.

(** A thrown value that is no Error has no message to pass on. *)
Example gated_unknown_error :
  GatedEcho.callTool (fun _ => Eff.throw (Node.Value Js.JNull))
    (echo_request "echo" "hello") fresh
  = (Eff.Threw (Node.Error "Access denied: Unknown error"), fresh).
Proof. reflexivity. Qed.

(** Arguments the schema refuses are answered in text. *)
Example weather_invalid_arguments :
  Weather.callTool points_up forecast_up offline parse_forecast
    parse_location encode
    {| name := "get-forecast"; arguments := Some ∅ |} fresh
  = (Eff.Returned
       (Weather.text_response "Invalid arguments: latitude: Required"),
     fresh).
Proof. by vm_compute. Qed.

(** A temperature of zero is falsy and prints as "Unknown". *)
Example zero_temperature :
  Weather.temperature_text (Some 0%Z) = "Unknown"
  /\ Weather.temperature_text (Some 54%Z) = "54".
Proof. by vm_compute. Qed.

(** The open program with a free port: the library announces the port,
    the program logs that it runs, and the process goes on. *)
Example echo_program_starts :
  Startup.node (App:=unit) (fun _ _ => None) print_and_exit
    (Startup.program (step_ok tt) step_ok (fun _ _ => step_ok tt)
       MoreSamples.library_lines (step_ok 3001%Z) Servers.EchoServer) fresh
  = {| Node.console :=
         [ {| Node.stream := Node.Stdout;
              Node.args := [Node.LStr "Server running on port 3000"] |};
           {| Node.stream := Node.Stdout;
              Node.args :=
                [Node.LStr "Echo server running on http://localhost:3000"]
           |} ];
       Node.exit_code := None;
       Node.fetched := [] |}.
Proof. by vm_compute. Qed.

(** C1, as stated, fails: a rejection is answered by a thrown Error, not by
    a returned denial result, and the thrown message carries the verifier's
    own error text behind "Access denied: "; with a verifier whose error
    quotes the request, the message of the request is in it too. *)
Lemma gated_rejection_throws_detail :
  GatedEcho.callTool rejecting (echo_request "echo" "hello") fresh
    = (Eff.Threw
         (Node.Error "Access denied: Insufficient token balance: 0 < 1"),
       fresh)
  /\ Eff.returns
       (GatedEcho.callTool rejecting (echo_request "echo" "hello") fresh).1
     = false
  /\ Js.includes "Access denied: Insufficient token balance: 0 < 1"
       "Insufficient token balance: 0 < 1" = true
  /\ GatedEcho.callTool quoting (echo_request "echo" "my secret") fresh
     = (Eff.Threw
          (Node.Error "Access denied: Invalid signature for my secret"),
        fresh)
  /\ Js.includes "Access denied: Invalid signature for my secret" "my secret"
     = true.
Proof. repeat split; by vm_compute. Qed.

(** C2, as stated, fails: the open echo server declares the one tool
    "echo", yet a call of "no-such-tool" is answered like a call of "echo",
    with the echoed message and no sign of a failure. *)
Lemma echo_answers_undeclared_tool :
  ("no-such-tool" ∉ Servers.declared_names Servers.EchoServer)
  /\ Echo.callTool (echo_request "no-such-tool" "hello") fresh
     = (Eff.Returned
          {| content := [ {| type := "text"; text := Js.JStr "hello" |} ] |},
        fresh)
  /\ Echo.callTool (echo_request "no-such-tool" "hello") fresh
     = Echo.callTool (echo_request "echo" "hello") fresh
  /\ Servers.reports_failure
       {| content :=
            [ {| type := "text"; text := Js.JStr (Num:=Z) "hello" |} ] |}
     = false.
Proof.
  split; [|repeat split; by vm_compute].
  apply (bool_decide_eq_false_1 _). by vm_compute.
Qed.

(** C6, as stated, fails in the gated variant: without a message field and
    under a verifier that resolves, the text is not "No message provided"
    but the whole reply line that ends with it. *)
Lemma gated_absent_message_text :
  arguments bare_request ≫= (.!! "message") = None
  /\ GatedEcho.callTool accepting bare_request fresh
     = (Eff.Returned
          {| content :=
               [ {| type := "text";
                    text :=
                      Js.JStr
                        "Message from 0xA11ce (balance: 5): No message provided"
                 |} ] |},
        fresh)
  /\ Js.JStr (Num:=Z) "Message from 0xA11ce (balance: 5): No message provided"
     <> Js.JStr "No message provided".
Proof. repeat split; by vm_compute. Qed.

(** C9, as stated, fails in the gated variant: with the message bound to
    the empty string and under a verifier that resolves, the text is not
    "No message provided" but the whole reply line that ends with it. *)
Lemma gated_empty_message_text :
  argument "message" (echo_request "echo" "") = Js.JStr ""
  /\ GatedEcho.callTool accepting (echo_request "echo" "") fresh
     = (Eff.Returned
          {| content :=
               [ {| type := "text";
                    text :=
                      Js.JStr
                        "Message from 0xA11ce (balance: 5): No message provided"
                 |} ] |},
        fresh)
  /\ Js.JStr (Num:=Z) "Message from 0xA11ce (balance: 5): No message provided"
     <> Js.JStr "No message provided".
Proof. repeat split; by vm_compute. Qed.

(** The rethrow of C1 on a verifier that rejects for the balance. *)
Lemma gated_rejection_rethrown_witness :
  rejecting (echo_request "echo" "hello") fresh
    = (Eff.Threw (Node.Error "Insufficient token balance: 0 < 1"), fresh)
  /\ GatedEcho.callTool rejecting (echo_request "echo" "hello") fresh
     = (Eff.Threw
          (Node.Error "Access denied: Insufficient token balance: 0 < 1"),
        fresh).
Proof.
  split; [reflexivity|].
  exact (EchoClaims.gated_rejection_rethrown rejecting
           (echo_request "echo" "hello") fresh _ fresh eq_refl).
Defined.

(** C5 on the request [{ message: "hello" }] of a holder of 5 tokens. *)
Lemma gated_verified_text_witness :
  accepting (echo_request "echo" "hello") fresh
    = (Eff.Returned
         {| GatedEcho.signerAddress := "0xA11ce"; GatedEcho.balance := 5 |},
       fresh)
  /\ argument "message" (echo_request "echo" "hello") = Js.JStr "hello"
  /\ exists t,
       GatedEcho.callTool accepting (echo_request "echo" "hello") fresh
         = (Eff.Returned
              {| content := [ {| type := "text"; text := Js.JStr t |} ] |},
            fresh)
       /\ Js.includes t "0xA11ce" = true
       /\ Js.includes t "5" = true
       /\ Js.includes t "hello" = true.
Proof.
  split; [reflexivity|]. split; [reflexivity|].
  exact (EchoClaims.gated_verified_text accepting
           (echo_request "echo" "hello") fresh _ fresh "hello"
           eq_refl eq_refl).
Defined.

(** C6 on a request whose arguments are [{}]. *)
Lemma absent_message_default_witness :
  arguments bare_request ≫= (.!! "message") = None
  /\ Echo.callTool bare_request fresh
     = (Eff.Returned
          {| content :=
               [ {| type := "text";
                    text := Js.JStr "No message provided" |} ] |}, fresh)
  /\ GatedEcho.callTool accepting bare_request fresh
     = (Eff.Returned
          {| content :=
               [ {| type := "text";
                    text :=
                      Js.JStr
                        "Message from 0xA11ce (balance: 5): No message provided"
                 |} ] |}, fresh).
Proof.
  split; [reflexivity|].
  exact (EchoClaims.absent_message_default accepting bare_request fresh
           _ fresh eq_refl eq_refl).
Defined.

(** C9 on a request whose message is the empty string. *)
Lemma falsy_message_default_witness :
  Js.truthy (argument "message" (echo_request "echo" "")) = false
  /\ Echo.callTool (echo_request "echo" "") fresh
     = (Eff.Returned
          {| content :=
               [ {| type := "text";
                    text := Js.JStr "No message provided" |} ] |}, fresh)
  /\ GatedEcho.callTool accepting (echo_request "echo" "") fresh
     = (Eff.Returned
          {| content :=
               [ {| type := "text";
                    text :=
                      Js.JStr
                        "Message from 0xA11ce (balance: 5): No message provided"
                 |} ] |}, fresh).
Proof.
  split; [reflexivity|].
  exact (EchoClaims.falsy_message_default accepting (echo_request "echo" "")
           fresh _ fresh eq_refl eq_refl).
Defined.

(** C2 on the weather server and the tool name "no-such-tool". *)
Lemma undeclared_tool_answer_witness :
  Servers.WeatherServer <> Servers.GatedServer
  /\ (name (echo_request "no-such-tool" "hello")
      ∉ Servers.declared_names Servers.WeatherServer)
  /\ Servers.callTool accepting points_up forecast_up offline parse_forecast
       parse_location encode Servers.WeatherServer
       (echo_request "no-such-tool" "hello") fresh
     = (Eff.Returned
          (Weather.text_response "Error: Unknown tool: no-such-tool"),
        fresh).
Proof.
  assert (Hv : Servers.WeatherServer <> Servers.GatedServer)
    by discriminate.
  assert (Hn : name (echo_request "no-such-tool" "hello")
               ∉ Servers.declared_names Servers.WeatherServer)
    by (apply (bool_decide_eq_false_1 _); vm_compute; reflexivity).
  split; [exact Hv|]. split; [exact Hn|].
  exact (HandlerClaims.undeclared_tool_answer accepting points_up forecast_up
           offline parse_forecast parse_location encode
           Servers.WeatherServer (echo_request "no-such-tool" "hello") fresh
           Hv Hn).
Defined.

(** C3 on an empty environment, with a library whose verifier rejects for
    want of a token address. *)
Lemma createServer_without_token_witness :
  (∅ : gmap string string) !! "LOCALHOST_TOKEN" = None
  /\ GatedEcho.tokenAddress (GatedEcho.verifierOptions (Num:=Z) ∅) = None
  /\ exists server p',
       GatedEcho.createServer createPublicClient createTokenGateVerifier
         ∅ fresh
       = (Eff.Returned server, p')
       /\ Node.exit_code p' = None
       /\ exists m,
            GatedEcho.on_callTool server (echo_request "echo" "hello") fresh
            = (Eff.Threw (Node.Error ("Access denied: " +:+ m)), fresh).
Proof.
  assert (Henv : (∅ : gmap string string) !! "LOCALHOST_TOKEN" = None)
    by reflexivity.
  split; [exact Henv|].
  destruct (BootClaims.createServer_without_token createPublicClient
              createTokenGateVerifier ∅ (GatedEcho.clientConfig ∅)
              (fun _ => Eff.throw (Node.Error "Invalid token address"))
              fresh Henv eq_refl eq_refl)
    as (Htoken & server & p' & Hcreate & Hexit & _ & _ & Hcall).
  split; [exact Htoken|].
  exists server, p'. split; [exact Hcreate|]. split; [exact Hexit|].
  exact (Hcall (echo_request "echo" "hello") fresh
           (Node.Error "Invalid token address") fresh eq_refl).
Defined.


(** C10 on a forecast by name while the geocoder cannot be reached. *)
Lemma returned_content_one_text_block_witness :
  Servers.callTool accepting points_up forecast_up offline parse_forecast
    parse_location encode Servers.WeatherServer (by_name_request "Topeka")
    fresh
  = (Eff.Returned
       (Weather.text_response
          "Could not find coordinates for location: Topeka"),
     Weather.after_logged_failure "Error geocoding location:"
       (Weather.geocode_url "Topeka") (Node.Error "fetch failed") fresh)
  /\ one_text_block
       (Weather.text_response (Num:=Z)
          "Could not find coordinates for location: Topeka") = true.
Proof.
  split; [reflexivity|].
  exact (HandlerClaims.returned_content_one_text_block accepting points_up
           forecast_up offline parse_forecast parse_location encode
           Servers.WeatherServer (by_name_request "Topeka") fresh _ _
           eq_refl).
Defined.



End Instances.

(** ** Further properties of the echo servers *)
Module EchoExtras.
Import Mcp.

Section Handlers.
Context {Num : Type} `{!Js.JsNumber Num}.
Implicit Types (request : CallToolRequest Num) (p : Node.Process Num).

(** X1: the open echo handler gives a truthy message back unchanged as the
    text of its one block (a number or a boolean stays what it is, it is not
    turned into a string), and leaves the process as it was. *)
Theorem echo_truthy_verbatim request p :
  Js.truthy (argument "message" request) = true ->
  Echo.callTool request p
  = (Eff.Returned
       {| content :=
            [ {| type := "text"; text := argument "message" request |} ] |},
     p).
Proof.
  intros Ht. rewrite EchoProps.echo_callTool_eq.
  by rewrite (JsFacts.js_or_truthy _ _ Ht).
Qed.

(** X2: the gated handler adds no effect of its own to those of the
    verifier, and it returns exactly when the verifier resolves: it throws
    on every rejection and on nothing else. *)
Theorem gated_follows_verifier (verifier : GatedEcho.Verifier Num) request p :
  (GatedEcho.callTool verifier request p).2 = (verifier request p).2
  /\ Eff.returns (GatedEcho.callTool verifier request p).1
     = Eff.returns (verifier request p).1.
Proof.
  destruct (verifier request p) as [[v|e] p'] eqn:Hv.
  - by rewrite (EchoProps.gated_callTool_verified _ _ _ _ _ Hv).
  - by rewrite (EchoProps.gated_callTool_rejected _ _ _ _ _ Hv).
Qed.

(** X3: the gated handler turns a truthy message that is no string into
    its string form inside the reply line, where the open handler would
    give the value itself. *)
Theorem gated_stringifies_message (verifier : GatedEcho.Verifier Num)
    request p v p' :
  verifier request p = (Eff.Returned v, p') ->
  Js.truthy (argument "message" request) = true ->
  GatedEcho.callTool verifier request p
  = (Eff.Returned
       {| content :=
            [ {| type := "text";
                 text :=
                   Js.JStr
                     ("Message from " +:+ GatedEcho.signerAddress v
                      +:+ " (balance: "
                      +:+ Js.int_toString (GatedEcho.balance v) +:+ "): "
                      +:+ Js.ToString (argument "message" request)) |} ] |},
     p').
Proof.
  intros Hv Ht. rewrite (EchoProps.gated_callTool_verified _ _ _ _ _ Hv).
  by rewrite (JsFacts.js_or_truthy _ _ Ht).
Qed.
End Handlers.

Section CreateServer.
Context {Num : Type} `{!Js.JsNumber Num} {Client : Type}.
Variable createPublicClient :
  GatedEcho.ClientConfig -> Eff.Outcome (Node.Thrown Num) Client.
Variable createTokenGateVerifier :
  Client -> GatedEcho.VerifierOptions Num ->
  Eff.Outcome (Node.Thrown Num) (GatedEcho.Verifier Num).
Implicit Types (env : gmap string string) (p : Node.Process Num).

(** X4: [createServer] reads three variables of the environment and no
    other: two environments that agree on RPC_URL, STRAWBERRY_NETWORK_ID and
    LOCALHOST_TOKEN give the same server, the same console line and the same
    exception. *)
Theorem createServer_reads_three_variables env env' p :
  env !! "RPC_URL" = env' !! "RPC_URL" ->
  env !! "STRAWBERRY_NETWORK_ID" = env' !! "STRAWBERRY_NETWORK_ID" ->
  env !! "LOCALHOST_TOKEN" = env' !! "LOCALHOST_TOKEN" ->
  GatedEcho.createServer createPublicClient createTokenGateVerifier env p
  = GatedEcho.createServer createPublicClient createTokenGateVerifier env' p.
Proof.
  intros Hrpc Hid Htoken.
  unfold GatedEcho.createServer, GatedEcho.clientConfig,
    GatedEcho.verifierOptions.
  by rewrite Hrpc, Hid, Htoken.
Qed.

(** X5: a variable set to the empty string counts as absent for RPC_URL
    (the client then uses https://sepolia.base.org) and for
    STRAWBERRY_NETWORK_ID (the chain id is then parseInt of "1"), but not
    for LOCALHOST_TOKEN, which has no default and is passed on as it is,
    the empty string included. *)
Theorem empty_variable_defaults env :
  (Trace.unset env "RPC_URL" ->
   GatedEcho.transport (GatedEcho.clientConfig env)
   = "https://sepolia.base.org")
  /\ (Trace.unset env "STRAWBERRY_NETWORK_ID" ->
      GatedEcho.chainId (GatedEcho.domain (GatedEcho.verifierOptions env))
      = Js.parseInt "1")
  /\ (forall a,
        env !! "LOCALHOST_TOKEN" = Some a ->
        GatedEcho.tokenAddress (GatedEcho.verifierOptions (Num:=Num) env)
        = Some a).
Proof.
  split; [|split].
  - intros [Hk|Hk]; unfold GatedEcho.clientConfig; simpl; by rewrite Hk.
  - intros [Hk|Hk]; unfold GatedEcho.verifierOptions; simpl; by rewrite Hk.
  - by intros a Hk.
Qed.

(** X6: [createServer] logs the verifier options on standard output before
    it builds the verifier, so the line is on the console even when
    [createTokenGateVerifier] throws; when [createPublicClient] throws
    nothing has been logged.  In no case does it set an exit status or
    fetch anything. *)
Theorem createServer_logs_before_verifier env p :
  (forall e,
     createPublicClient (GatedEcho.clientConfig env) = Eff.Threw e ->
     GatedEcho.createServer createPublicClient createTokenGateVerifier env p
     = (Eff.Threw e, p))
  /\ (forall client,
        createPublicClient (GatedEcho.clientConfig env)
          = Eff.Returned client ->
        Trace.continues p
          (GatedEcho.createServer createPublicClient createTokenGateVerifier
             env p).2
          [ {| Node.stream := Node.Stdout;
               Node.args :=
                 [GatedEcho.log_options (GatedEcho.verifierOptions env)] |} ]
          []
        /\ forall e,
             createTokenGateVerifier client (GatedEcho.verifierOptions env)
               = Eff.Threw e ->
             (GatedEcho.createServer createPublicClient
                createTokenGateVerifier env p).1
             = Eff.Threw e).
Proof.
  pose proof (BootClaims.createServer_outcome createPublicClient
                createTokenGateVerifier env p) as Hcs.
  split.
  - intros e He. by rewrite He in Hcs.
  - intros client Hc. rewrite Hc in Hcs. simpl in Hcs.
    destruct (createTokenGateVerifier client _) as [verifier|e0];
      rewrite Hcs; (split; [|by intros e [= ->]]);
      (split; [done|split; [done|]]); simpl; by rewrite app_nil_r.
Qed.
End CreateServer.

End EchoExtras.

(** ** Traces of the weather server *)
Module WeatherTrace.
Import Mcp Weather WeatherProps Trace.

Section Requests.
Context {Num : Type} `{!Js.JsNumber Num}.
Implicit Types (p : Node.Process Num) (url : string).

Lemma continues_refl p : continues p p [] [].
Proof. unfold continues. by rewrite !app_nil_r. Qed.

Lemma continues_trans p p1 p2 logs1 urls1 logs2 urls2 :
  continues p p1 logs1 urls1 ->
  continues p1 p2 logs2 urls2 ->
  continues p p2 (logs1 ++ logs2) (urls1 ++ urls2).
Proof.
  intros (Hc1 & He1 & Hf1) (Hc2 & He2 & Hf2). unfold continues.
  rewrite Hc2, Hc1, He2, He1, Hf2, Hf1. by rewrite !app_assoc.
Qed.

Lemma continues_fetch url p : continues p (after_fetch url p) [] [url].
Proof. unfold continues. simpl. by rewrite app_nil_r. Qed.

Lemma continues_logged label url e p :
  continues p (after_logged_failure label url e p) [stderr_line label e] [url].
Proof. done. Qed.

(** A call that did not fail has an ok response whose body parsed. *)
Lemma http_ok_inv {T}
    (o : Eff.Outcome (Node.Thrown Num) (HttpResponse (Node.Thrown Num) T)) :
  http_failed o = false ->
  exists response body,
    o = Eff.Returned response /\ ok response = true
    /\ json response = Eff.Returned body.
Proof.
  destruct o as [response|e]; simpl; [|done].
  destruct (ok response) eqn:Hok; simpl; [|done].
  destruct (json response) as [body|e] eqn:Hj; simpl; [|done].
  by eauto.
Qed.

(** The two ways [makeNWSRequest] ends: the body and no line on the
    console, or null and one line. *)
Lemma makeNWSRequest_cases {T} (net : Net Num T) url p :
  (exists response body,
     net (Node.fetched p) url = Eff.Returned response
     /\ ok response = true /\ json response = Eff.Returned body
     /\ makeNWSRequest net url p = (Eff.Returned body, after_fetch url p))
  \/ (exists e,
        http_failed (net (Node.fetched p) url) = true
        /\ makeNWSRequest net url p
           = (Eff.Returned None,
              after_logged_failure "Error making NWS request:" url e p)).
Proof.
  destruct (http_failed (net (Node.fetched p) url)) eqn:Hf.
  - right. destruct (makeNWSRequest_failed _ _ _ Hf) as [e E]. by eauto.
  - left. destruct (http_ok_inv _ Hf) as (response & body & Hn & Hok & Hj).
    exists response, body. repeat split; [done..|].
    exact (makeNWSRequest_ok _ _ _ _ _ Hn Hok Hj).
Qed.
End Requests.

Section Handlers.
Context {Num : Type} `{!Js.JsNumber Num}.
Variable net_points : Net Num PointsResponse.
Variable net_forecast : Net Num (ForecastResponse Num).
Variable net_geocode : Net Num (list GeocodingResponse).
Variable ForecastArgumentsSchema_parse :
  option (gmap string (Js.JsValue Num)) ->
  Eff.Outcome (Node.Thrown Num) (Num * Num).
Variable LocationArgumentsSchema_parse :
  option (gmap string (Js.JsValue Num)) ->
  Eff.Outcome (Node.Thrown Num) string.
Variable encodeURIComponent : string -> Eff.Outcome (Node.Thrown Num) string.
Implicit Types (p : Node.Process Num) (request : CallToolRequest Num).

Abbreviation getForecast := (getForecastForCoordinates net_points net_forecast).
Abbreviation geocode := (geocodeLocation net_geocode encodeURIComponent).
Abbreviation handler :=
  (callTool net_points net_forecast net_geocode ForecastArgumentsSchema_parse
     LocationArgumentsSchema_parse encodeURIComponent).

(** [getForecastForCoordinates] when the grid point request gave a body. *)
Lemma getForecast_after_points latitude longitude p response pointsData :
  net_points (Node.fetched p) (points_url latitude longitude)
    = Eff.Returned response ->
  ok response = true ->
  json response = Eff.Returned (Some pointsData) ->
  getForecast latitude longitude p
  = (let forecastUrl :=
       Js.str_or (points_properties pointsData ≫= forecast) "" in
     if negb (Js.str_truthy forecastUrl)
     then Eff.ret
            (text_response "Failed to get forecast URL from grid point data")
     else
       forecastData <- makeNWSRequest net_forecast forecastUrl ;;
       match forecastData with
       | None => Eff.ret (text_response "Failed to retrieve forecast data")
       | Some forecastData =>
           let periods :=
             default [] (forecast_properties forecastData ≫= periods) in
           if Nat.eqb (length periods) 0
           then Eff.ret (text_response "No forecast periods available")
           else
             Eff.ret
               (text_response
                  ("Forecast for " +:+ Js.num_toString latitude +:+ ", "
                   +:+ Js.num_toString longitude +:+ ":" +:+ nl +:+ nl
                   +:+ Js.join nl (map format_period periods)))
       end)%eff
      (after_fetch (points_url latitude longitude) p).
Proof.
  intros Hnet Hok Hjson.
  pose proof (makeNWSRequest_ok _ _ _ _ _ Hnet Hok Hjson) as E1.
  unfold getForecastForCoordinates. unfold Eff.bind at 1.
  unfold points_url in E1. by rewrite E1.
Qed.

(** What every run of [getForecastForCoordinates] leaves behind. *)
Lemma getForecast_trace latitude longitude p :
  exists t p' logs urls,
    getForecast latitude longitude p = (Eff.Returned (text_response t), p')
    /\ Js.str_truthy t = true
    /\ continues p p' logs urls
    /\ (logs = []
        \/ exists e, logs = [stderr_line "Error making NWS request:" e])
    /\ (urls = [points_url latitude longitude]
        \/ exists u,
             Js.str_truthy u = true
             /\ urls = [points_url latitude longitude; u]).
Proof.
  destruct (makeNWSRequest_cases net_points
              (points_url latitude longitude) p)
    as [(response & body & Hnet & Hok & Hjson & E1)|(e & Hf & E1)].
  - destruct body as [pointsData|].
    + rewrite (getForecast_after_points _ _ _ _ _ Hnet Hok Hjson).
      cbv zeta.
      destruct (Js.str_truthy (Js.str_or _ "")) eqn:Hu; simpl.
      * unfold Eff.bind.
        match goal with
        | |- context [makeNWSRequest net_forecast ?u ?q] =>
            destruct (makeNWSRequest_cases net_forecast u q)
              as [(r2 & b2 & _ & _ & _ & E2)|(e2 & _ & E2)]; rewrite E2
        end.
        -- destruct b2 as [forecastData|];
             [destruct (length _ =? 0)%nat|];
             do 4 eexists;
             (split; [reflexivity|]); (split; [done|]);
             (split;
              [exact (continues_trans _ _ _ _ _ _ _
                        (continues_fetch _ _) (continues_fetch _ _))|]);
             (split; [by left|]); right; by eauto.
        -- do 4 eexists.
           split; [reflexivity|]. split; [done|].
           split;
             [exact (continues_trans _ _ _ _ _ _ _
                       (continues_fetch _ _) (continues_logged _ _ _ _))|].
           split; [right; by eauto|]. right; by eauto.
      * do 4 eexists. split; [reflexivity|]. split; [done|].
        split; [apply continues_fetch|]. split; by left.
    + unfold getForecastForCoordinates, Eff.bind.
      unfold points_url in E1. rewrite E1.
      do 4 eexists. split; [reflexivity|]. split; [done|].
      split; [apply continues_fetch|]. split; by left.
  - unfold getForecastForCoordinates, Eff.bind.
    unfold points_url in E1. rewrite E1.
    do 4 eexists. split; [reflexivity|]. split; [done|].
    split; [apply continues_logged|]. split; [right; by eauto | by left].
Qed.

(** What every run of [geocodeLocation] leaves behind, once the location is
    encoded. *)
Lemma geocode_trace location encoded p :
  encodeURIComponent location = Eff.Returned encoded ->
  exists g p' logs,
    geocode location p = (Eff.Returned g, p')
    /\ continues p p' logs [geocode_url encoded]
    /\ (logs = []
        \/ (g = None
            /\ exists e, logs = [stderr_line "Error geocoding location:" e])).
Proof.
  intros Henc.
  destruct (http_failed (net_geocode (Node.fetched p) (geocode_url encoded)))
    eqn:Hf.
  - destruct (geocode_failed net_geocode encodeURIComponent _ _ _ Henc Hf)
      as [e E].
    rewrite E. do 3 eexists. split; [reflexivity|].
    split; [apply continues_logged|]. right. by eauto.
  - destruct (http_ok_inv _ Hf) as (response & body & Hn & Hok & Hj).
    unfold geocodeLocation, Eff.bind, Eff.try_catch, Eff.lift, fetch.
    rewrite Henc. unfold geocode_url in Hn. rewrite Hn, Hok. simpl.
    rewrite Hj. destruct body as [results|].
    + exists (head results), (after_fetch (geocode_url encoded) p), [].
      split; [reflexivity|]. split; [apply continues_fetch | by left].
    + eexists None, _, [stderr_line "Error geocoding location:" _].
      split; [reflexivity|]. split; [done|]. right. by eauto.
Qed.
End Handlers.

End WeatherTrace.

(** ** Further properties of the weather server *)
Module WeatherExtras.
Import Mcp Weather WeatherProps Trace WeatherTrace.

(** Every element of an array is part of its [join]. *)
Lemma includes_join (sep x : string) (l : list string) :
  x ∈ l -> Js.includes (Js.join sep l) x = true.
Proof.
  induction l as [|y l IH]; intros Hx; [by apply elem_of_nil in Hx|].
  apply elem_of_cons in Hx as [->|Hx].
  - destruct l as [|z l]; simpl.
    + apply JsFacts.includes_refl.
    + apply (JsFacts.includes_app "").
  - destruct l as [|z l]; [by apply elem_of_nil in Hx|].
    change (Js.includes (y +:+ sep +:+ Js.join sep (z :: l)) x = true).
    do 2 apply JsFacts.includes_skip. by apply IH.
Qed.

Section Handlers.
Context {Num : Type} `{!Js.JsNumber Num}.
Variable net_points : Net Num PointsResponse.
Variable net_forecast : Net Num (ForecastResponse Num).
Variable net_geocode : Net Num (list GeocodingResponse).
Variable ForecastArgumentsSchema_parse :
  option (gmap string (Js.JsValue Num)) ->
  Eff.Outcome (Node.Thrown Num) (Num * Num).
Variable LocationArgumentsSchema_parse :
  option (gmap string (Js.JsValue Num)) ->
  Eff.Outcome (Node.Thrown Num) string.
Variable encodeURIComponent : string -> Eff.Outcome (Node.Thrown Num) string.
Implicit Types (p : Node.Process Num) (request : CallToolRequest Num).

Abbreviation getForecast := (getForecastForCoordinates net_points net_forecast).
Abbreviation geocode := (geocodeLocation net_geocode encodeURIComponent).
Abbreviation handler :=
  (callTool net_points net_forecast net_geocode ForecastArgumentsSchema_parse
     LocationArgumentsSchema_parse encodeURIComponent).

(** X7: every run of [getForecastForCoordinates] returns one non-empty
    text, fetches the grid point URL first and after it at most one more
    URL, writes at most one line to the console (the logged failure of a
    request) and leaves the exit status alone. *)
Theorem forecast_fetch_discipline latitude longitude p :
  exists t p' logs urls,
    getForecast latitude longitude p = (Eff.Returned (text_response t), p')
    /\ Js.str_truthy t = true
    /\ continues p p' logs urls
    /\ (logs = []
        \/ exists e, logs = [stderr_line "Error making NWS request:" e])
    /\ (urls = [points_url latitude longitude]
        \/ exists u,
             Js.str_truthy u = true
             /\ urls = [points_url latitude longitude; u]).
Proof. apply getForecast_trace. Qed.

(** X8: whatever the request, the network and the schemas do, the weather
    call-tool handler returns, having fetched at most three URLs and written
    at most one line, on the error stream, to the console; it never sets an
    exit status. *)
Theorem handler_trace_bound request p :
  exists r p' logs urls,
    handler request p = (Eff.Returned r, p')
    /\ continues p p' logs urls
    /\ length logs <= 1
    /\ Forall (fun l => Node.stream l = Node.Stderr) logs
    /\ length urls <= 3.
Proof.
  assert (Hquiet : forall r : CallToolResult Num,
            exists r' p' logs urls,
              (Eff.Returned (E:=Node.Thrown Num) r, p) = (Eff.Returned r', p')
              /\ continues p p' logs urls /\ length logs <= 1
              /\ Forall (fun l => Node.stream l = Node.Stderr) logs
              /\ length urls <= 3).
  { intros r. exists r, p, [], []. split; [done|].
    split; [apply continues_refl|]. simpl. repeat split; [lia|done|lia]. }
  unfold callTool, Eff.try_catch.
  destruct (String.eqb (name request) "get-forecast").
  { unfold Eff.bind, Eff.lift.
    destruct (ForecastArgumentsSchema_parse _) as [[latitude longitude]|e].
    - simpl.
      destruct (getForecast_trace net_points net_forecast latitude longitude p)
        as (t & p' & logs & urls & -> & _ & Hc & Hl & Hu).
      exists (text_response t), p', logs, urls. split; [done|].
      split; [done|].
      destruct Hl as [->|[e ->]], Hu as [->|(u & _ & ->)]; simpl;
        repeat split; try lia; by repeat constructor.
    - destruct e as [m [issues|]|v]; apply Hquiet. }
  destruct (String.eqb (name request) "get-forecast-by-name");
    [|apply Hquiet].
  unfold Eff.bind at 1, Eff.lift at 1.
  destruct (LocationArgumentsSchema_parse _) as [location|e];
    [|destruct e as [m [issues|]|v]; apply Hquiet].
  unfold Eff.bind at 1.
  pose proof (geocode_outcome net_geocode encodeURIComponent location p) as Hg.
  destruct (encodeURIComponent location) as [encoded|e] eqn:Henc;
    [|rewrite Hg; destruct e as [m [issues|]|v]; apply Hquiet].
  clear Hg.
  destruct (geocode_trace net_geocode encodeURIComponent _ _ p Henc)
    as (g & p1 & logs1 & -> & Hc1 & Hl1).
  destruct g as [g|].
  - destruct Hl1 as [->|[[=] _]].
    unfold Eff.bind.
    destruct (getForecast_trace net_points net_forecast
                (Js.parseFloat (lat g)) (Js.parseFloat (lon g)) p1)
      as (t & p' & logs & urls & -> & _ & Hc & Hl & Hu).
    do 2 eexists. exists ([] ++ logs)%list, ([geocode_url encoded] ++ urls)%list.
    split; [reflexivity|].
    split; [exact (continues_trans _ _ _ _ _ _ _ Hc1 Hc)|].
    destruct Hl as [->|[e ->]], Hu as [->|(u & _ & ->)]; simpl;
      repeat split; try lia; by repeat constructor.
  - do 2 eexists. exists logs1, [geocode_url encoded].
    split; [reflexivity|]. split; [done|].
    destruct Hl1 as [->|[_ [e ->]]]; simpl;
      repeat split; try lia; by repeat constructor.
Qed.

(** X9: when both requests succeed and the forecast has periods, the text
    is "Forecast for <latitude>, <longitude>:", an empty line, and the
    formatted periods one after the other; the formatted text of every
    period is part of it, two URLs were fetched and nothing was logged. *)
Theorem forecast_success_text latitude longitude p response pointsData u
    response' forecastData ps :
  net_points (Node.fetched p) (points_url latitude longitude)
    = Eff.Returned response ->
  ok response = true ->
  json response = Eff.Returned (Some pointsData) ->
  points_properties pointsData ≫= forecast = Some u ->
  Js.str_truthy u = true ->
  net_forecast (Node.fetched p ++ [points_url latitude longitude])%list u
    = Eff.Returned response' ->
  ok response' = true ->
  json response' = Eff.Returned (Some forecastData) ->
  forecast_properties forecastData ≫= periods = Some ps ->
  ps <> [] ->
  getForecast latitude longitude p
  = (Eff.Returned
       (text_response
          ("Forecast for " +:+ Js.num_toString latitude +:+ ", "
           +:+ Js.num_toString longitude +:+ ":" +:+ nl +:+ nl
           +:+ Js.join nl (map format_period ps))),
     after_fetch u (after_fetch (points_url latitude longitude) p))
  /\ forall q,
       q ∈ ps ->
       Js.includes
         ("Forecast for " +:+ Js.num_toString latitude +:+ ", "
          +:+ Js.num_toString longitude +:+ ":" +:+ nl +:+ nl
          +:+ Js.join nl (map format_period ps))
         (format_period q) = true.
Proof.
  intros Hnet Hok Hjson Hurl Hu Hnet' Hok' Hjson' Hps Hne. split.
  - rewrite (getForecast_after_points _ _ _ _ _ _ _ Hnet Hok Hjson).
    cbv zeta. rewrite Hurl. simpl. rewrite !Hu. simpl.
    unfold Eff.bind.
    rewrite (makeNWSRequest_ok net_forecast u
               (after_fetch (points_url latitude longitude) p)
               response' (Some forecastData) Hnet' Hok' Hjson').
    rewrite Hps. simpl. by destruct ps.
  - intros q Hq. do 7 apply JsFacts.includes_skip.
    apply includes_join. by apply list_elem_of_fmap_2.
Qed.

(** X10: a forecast body without properties, without periods or with an
    empty array of periods is answered "No forecast periods available". *)
Theorem no_periods_text latitude longitude p response pointsData u
    response' forecastData :
  net_points (Node.fetched p) (points_url latitude longitude)
    = Eff.Returned response ->
  ok response = true ->
  json response = Eff.Returned (Some pointsData) ->
  points_properties pointsData ≫= forecast = Some u ->
  Js.str_truthy u = true ->
  net_forecast (Node.fetched p ++ [points_url latitude longitude])%list u
    = Eff.Returned response' ->
  ok response' = true ->
  json response' = Eff.Returned (Some forecastData) ->
  forecast_properties forecastData ≫= periods = None
  \/ forecast_properties forecastData ≫= periods = Some [] ->
  getForecast latitude longitude p
  = (Eff.Returned (text_response "No forecast periods available"),
     after_fetch u (after_fetch (points_url latitude longitude) p)).
Proof.
  intros Hnet Hok Hjson Hurl Hu Hnet' Hok' Hjson' Hps.
  rewrite (getForecast_after_points _ _ _ _ _ _ _ Hnet Hok Hjson).
  cbv zeta. rewrite Hurl. simpl. rewrite !Hu. simpl.
  unfold Eff.bind.
  rewrite (makeNWSRequest_ok net_forecast u
             (after_fetch (points_url latitude longitude) p)
             response' (Some forecastData) Hnet' Hok' Hjson').
  by destruct Hps as [-> | ->].
Qed.

(** X11: a grid point body without properties, without a forecast URL or
    with an empty one is answered "Failed to get forecast URL from grid
    point data" after the one fetch; no second request is made and nothing
    is logged. *)
Theorem no_forecast_url_text latitude longitude p response pointsData :
  net_points (Node.fetched p) (points_url latitude longitude)
    = Eff.Returned response ->
  ok response = true ->
  json response = Eff.Returned (Some pointsData) ->
  points_properties pointsData ≫= forecast = None
  \/ points_properties pointsData ≫= forecast = Some "" ->
  getForecast latitude longitude p
  = (Eff.Returned
       (text_response "Failed to get forecast URL from grid point data"),
     after_fetch (points_url latitude longitude) p).
Proof.
  intros Hnet Hok Hjson Hurl.
  rewrite (getForecast_after_points _ _ _ _ _ _ _ Hnet Hok Hjson).
  cbv zeta. by destruct Hurl as [-> | ->].
Qed.

(** X12: an ok response whose body is the JSON value null is answered like
    a failed request, "Failed to retrieve grid point data ...", but, no
    exception having been caught, nothing is written to the console. *)
Theorem null_body_not_logged latitude longitude p response :
  net_points (Node.fetched p) (points_url latitude longitude)
    = Eff.Returned response ->
  ok response = true ->
  json response = Eff.Returned None ->
  getForecast latitude longitude p
  = (Eff.Returned
       (text_response
          ("Failed to retrieve grid point data for coordinates: "
           +:+ Js.num_toString latitude +:+ ", "
           +:+ Js.num_toString longitude
           +:+ ". This location may not be supported by the NWS API (only US locations are supported).")),
     after_fetch (points_url latitude longitude) p).
Proof.
  intros Hnet Hok Hjson.
  pose proof (makeNWSRequest_ok _ _ _ _ _ Hnet Hok Hjson) as E1.
  unfold getForecastForCoordinates, Eff.bind.
  unfold points_url in E1. by rewrite E1.
Qed.

(** X13: a temperature that is falsy as a number (zero) is formatted as if
    the period had no temperature: the line reads "Temperature: Unknown". *)
Theorem falsy_temperature_unknown (q : ForecastPeriod Num) n :
  temperature q = Some n ->
  Js.num_falsy n = true ->
  format_period q = format_period (without_temperature q)
  /\ Js.includes (format_period q) "Temperature: Unknown" = true.
Proof.
  intros Ht Hn. split.
  - unfold format_period, temperature_text. simpl. by rewrite Ht, Hn.
  - unfold format_period, temperature_text. rewrite Ht, Hn.
    cbn [Js.join]. do 2 apply JsFacts.includes_skip.
    by apply JsFacts.includes_prefix.
Qed.
End Handlers.

End WeatherExtras.

(** ** Further properties of the weather call-tool handler *)
Module HandlerExtras.
Import Mcp Weather WeatherProps Trace WeatherTrace.

Section Handlers.
Context {Num : Type} `{!Js.JsNumber Num}.
Variable net_points : Net Num PointsResponse.
Variable net_forecast : Net Num (ForecastResponse Num).
Variable net_geocode : Net Num (list GeocodingResponse).
Variable ForecastArgumentsSchema_parse :
  option (gmap string (Js.JsValue Num)) ->
  Eff.Outcome (Node.Thrown Num) (Num * Num).
Variable LocationArgumentsSchema_parse :
  option (gmap string (Js.JsValue Num)) ->
  Eff.Outcome (Node.Thrown Num) string.
Variable encodeURIComponent : string -> Eff.Outcome (Node.Thrown Num) string.
Implicit Types (p : Node.Process Num) (request : CallToolRequest Num).

Abbreviation getForecast := (getForecastForCoordinates net_points net_forecast).
Abbreviation geocode := (geocodeLocation net_geocode encodeURIComponent).
Abbreviation handler :=
  (callTool net_points net_forecast net_geocode ForecastArgumentsSchema_parse
     LocationArgumentsSchema_parse encodeURIComponent).

(** The geocoder on an ok response whose body is an array. *)
Lemma geocode_ok location encoded p response results :
  encodeURIComponent location = Eff.Returned encoded ->
  net_geocode (Node.fetched p) (geocode_url encoded) = Eff.Returned response ->
  ok response = true ->
  json response = Eff.Returned (Some results) ->
  geocode location p
  = (Eff.Returned (head results), after_fetch (geocode_url encoded) p).
Proof.
  intros Henc Hnet Hok Hjson.
  unfold geocodeLocation, Eff.bind, Eff.try_catch, Eff.lift, fetch.
  rewrite Henc. unfold geocode_url in Hnet. rewrite Hnet, Hok. simpl.
  by rewrite Hjson.
Qed.

(** X14: of the places the geocoder answers with, [geocodeLocation] takes
    the first and ignores the rest; on an empty array it returns null, and
    in neither case is anything logged. *)
Theorem geocode_first_result location encoded p response results :
  encodeURIComponent location = Eff.Returned encoded ->
  net_geocode (Node.fetched p) (geocode_url encoded) = Eff.Returned response ->
  ok response = true ->
  json response = Eff.Returned (Some results) ->
  geocode location p
  = (Eff.Returned
       match results with
       | first :: _ => Some first
       | [] => None
       end,
     after_fetch (geocode_url encoded) p).
Proof.
  intros Henc Hnet Hok Hjson.
  rewrite (geocode_ok _ _ _ _ _ Henc Hnet Hok Hjson). by destruct results.
Qed.

(** X15: the location is encoded before the try block of
    [geocodeLocation], so an exception of [encodeURIComponent] leaves the
    helper; the handler catches it and answers "Error: <message>", with no
    fetch made and nothing logged. *)
Theorem encoder_throw_answered request location message p :
  name request = "get-forecast-by-name" ->
  LocationArgumentsSchema_parse (arguments request) = Eff.Returned location ->
  encodeURIComponent location = Eff.Threw (Node.Error message) ->
  geocode location p = (Eff.Threw (Node.Error message), p)
  /\ handler request p
     = (Eff.Returned (text_response ("Error: " +:+ message)), p).
Proof.
  intros Hname Hparse Henc.
  assert (Hg : geocode location p = (Eff.Threw (Node.Error message), p)).
  { unfold geocodeLocation, Eff.bind, Eff.lift. by rewrite Henc. }
  split; [exact Hg|].
  unfold callTool, Eff.try_catch. rewrite Hname. simpl.
  unfold Eff.bind at 1, Eff.lift at 1. rewrite Hparse.
  unfold Eff.bind at 1. by rewrite Hg.
Qed.

(** X16: for a place the geocoder finds, the answer of the tool
    get-forecast-by-name is the answer [getForecastForCoordinates] gives at
    parseFloat of the place's lat and lon, with "Location: <display name>"
    and an empty line put before its text; the texts that explain a failed
    forecast get that heading too. *)
Theorem by_name_prepends_location request location encoded p response g rest :
  name request = "get-forecast-by-name" ->
  LocationArgumentsSchema_parse (arguments request) = Eff.Returned location ->
  encodeURIComponent location = Eff.Returned encoded ->
  net_geocode (Node.fetched p) (geocode_url encoded) = Eff.Returned response ->
  ok response = true ->
  json response = Eff.Returned (Some (g :: rest)) ->
  exists t p',
    getForecast (Js.parseFloat (lat g)) (Js.parseFloat (lon g))
      (after_fetch (geocode_url encoded) p)
    = (Eff.Returned (text_response t), p')
    /\ handler request p
       = (Eff.Returned
            (text_response
               ("Location: " +:+ display_name g +:+ nl +:+ nl +:+ t)),
          p').
Proof.
  intros Hname Hparse Henc Hnet Hok Hjson.
  pose proof (geocode_ok _ _ _ _ _ Henc Hnet Hok Hjson) as Hg.
  destruct (getForecast_total net_points net_forecast
              (Js.parseFloat (lat g)) (Js.parseFloat (lon g))
              (after_fetch (geocode_url encoded) p))
    as (t & p' & Hf & Ht).
  exists t, p'. split; [exact Hf|].
  unfold callTool, Eff.try_catch. rewrite Hname. simpl.
  unfold Eff.bind at 1, Eff.lift at 1. rewrite Hparse.
  unfold Eff.bind at 1. rewrite Hg. simpl.
  unfold Eff.bind. rewrite Hf. simpl. by rewrite Ht.
Qed.

(** X17: on arguments its schema accepts, the tool get-forecast answers
    what [getForecastForCoordinates] answers at the parsed latitude and
    longitude, and leaves the process as that function leaves it. *)
Theorem get_forecast_delegates request latitude longitude p :
  name request = "get-forecast" ->
  ForecastArgumentsSchema_parse (arguments request)
    = Eff.Returned (latitude, longitude) ->
  handler request p
  = getForecastForCoordinates net_points net_forecast latitude longitude p.
Proof.
  intros Hname Hparse.
  destruct (getForecast_total net_points net_forecast latitude longitude p)
    as (t & p' & Hf & _).
  unfold callTool, Eff.try_catch. rewrite Hname. simpl.
  unfold Eff.bind, Eff.lift. rewrite Hparse. simpl. by rewrite Hf.
Qed.

(** X18: arguments a schema refuses are answered in text before any
    request is made: "Invalid arguments: " and, for each issue of the
    ZodError, its path joined by dots, a colon and its message, the issues
    separated by commas. *)
Theorem refused_arguments_answered request message issues p :
  (name request = "get-forecast"
   /\ ForecastArgumentsSchema_parse (arguments request)
      = Eff.Threw (Node.ErrorObj message (Some issues)))
  \/ (name request = "get-forecast-by-name"
      /\ LocationArgumentsSchema_parse (arguments request)
         = Eff.Threw (Node.ErrorObj message (Some issues))) ->
  handler request p
  = (Eff.Returned
       (text_response
          ("Invalid arguments: "
           +:+ Js.join ", "
                 (map (fun e =>
                         Js.join "." (map path_elem_toString (Node.path e))
                         +:+ ": " +:+ Node.issue_message e)
                      issues))),
     p).
Proof.
  unfold callTool, Eff.try_catch.
  intros [[Hname Hparse]|[Hname Hparse]]; rewrite Hname; simpl;
    unfold Eff.bind, Eff.lift; by rewrite Hparse.
Qed.
End Handlers.

End HandlerExtras.

(** ** Further properties of the start of the programs *)
Module StartExtras.
Import Trace.

Section Start.
Context {Num App : Type}.
Variable strawberry : Eff.Outcome (Node.Thrown Num) App.
Variable connect : App -> Eff.Outcome (Node.Thrown Num) unit.
Variable listen : App -> Z -> Eff.Outcome (Node.Thrown Num) unit.
Variable listen_lines : App -> Z -> list (Node.ConsoleEntry Num).
Variable bind_error : App -> Z -> option (Node.Thrown Num).
Variable getPort : Eff.Outcome (Node.Thrown Num) Z.
Variable uncaught : Node.Thrown Num -> Node.Process Num -> Node.Process Num.
Implicit Types (p : Node.Process Num) (v : Servers.Variant).

Abbreviation run v :=
  (Startup.node bind_error uncaught
     (Startup.program strawberry connect listen listen_lines getPort v)).

(** X19: when no step of the start fails, the console gains what the
    library's [listen] writes once the socket is bound, and after it the one
    readiness line of the program (the echo servers on standard output with
    port 3000, the weather server on the error stream with the port
    [getPort] chose); the process goes on running: no exit status is set. *)
Theorem started_logs_readiness v p app port :
  Startup.starts strawberry connect listen bind_error getPort v = true ->
  strawberry = Eff.Returned app ->
  Startup.port_of getPort v = Eff.Returned port ->
  run v p
  = {| Node.console :=
         Node.console p ++ listen_lines app port ++ [readiness v port];
       Node.exit_code := Node.exit_code p;
       Node.fetched := Node.fetched p |}.
Proof.
  unfold Startup.starts, Startup.node, Startup.port_of.
  destruct v; simpl;
    unfold Startup.echo_program, Startup.gated_program,
      Startup.weather_program, Startup.weather_main, Startup.echo_main,
      Startup.app_listen, Eff.try_catch, Eff.bind, Eff.lift;
    (destruct strawberry as [app'|e]; [|done]);
    (destruct (connect app') as [[]|e]; [|done]).
  - destruct (listen app' 3000) as [[]|e]; [|done]. simpl.
    destruct (bind_error app' 3000); [done|].
    intros _ [= ->] [= <-]. simpl. by rewrite <- app_assoc.
  - destruct (listen app' 3000) as [[]|e]; [|done]. simpl.
    destruct (bind_error app' 3000); [done|].
    intros _ [= ->] [= <-]. simpl. by rewrite <- app_assoc.
  - destruct getPort as [port'|e]; [|done].
    destruct (listen app' port') as [[]|e]; [|done]. simpl.
    destruct (bind_error app' port'); [done|].
    intros _ [= ->] [= ->]. simpl. by rewrite <- app_assoc.
Qed.

(** X20: the weather program does all of its start inside [main()], so
    whichever step throws ([strawberry], [connect], [getPort] or [listen]),
    the program's own catch clause logs "Fatal error in main():" with the
    exception and exits with status 1; the runtime's handling of uncaught
    exceptions plays no part, and no readiness line is written. *)
Theorem weather_start_failure_is_fatal e p :
  (Startup.weather_main strawberry connect listen listen_lines getPort p).1
    = Eff.Threw e ->
  run Servers.WeatherServer p = after_fatal e p.
Proof.
  unfold Startup.node. simpl.
  unfold Startup.weather_program, Startup.weather_main, Startup.app_listen,
    Eff.try_catch, Eff.bind, Eff.lift.
  destruct strawberry as [app|e0]; [|by intros [= ->]].
  destruct (connect app) as [[]|e0]; [|by intros [= ->]].
  destruct getPort as [port|e0]; [|by intros [= ->]].
  destruct (listen app port) as [[]|e0]; [done | by intros [= ->]].
Qed.

(** X21: in the two echo programs [strawberry] and [connect] run at top
    level, outside any try: an exception of either goes to the runtime
    without a line of the program.  An exception of the call [app.listen]
    is caught and logged as fatal, with exit status 1, by the open program,
    whose [main()] has a catch clause, and goes to the runtime in the gated
    program, which has none. *)
Theorem echo_start_failures e p :
  (strawberry = Eff.Threw e ->
   run Servers.EchoServer p = uncaught e p
   /\ run Servers.GatedServer p = uncaught e p)
  /\ (forall app,
        strawberry = Eff.Returned app ->
        connect app = Eff.Threw e ->
        run Servers.EchoServer p = uncaught e p
        /\ run Servers.GatedServer p = uncaught e p)
  /\ (forall app,
        strawberry = Eff.Returned app ->
        connect app = Eff.Returned tt ->
        listen app 3000 = Eff.Threw e ->
        run Servers.EchoServer p = after_fatal e p
        /\ run Servers.GatedServer p = uncaught e p).
Proof.
  unfold Startup.node. simpl.
  unfold Startup.echo_program, Startup.gated_program, Startup.echo_main,
    Startup.app_listen, Eff.try_catch, Eff.bind, Eff.lift.
  split; [|split].
  - by intros ->.
  - intros app -> Hc. by rewrite Hc.
  - intros app -> Hc Hl. by rewrite Hc, Hl.
Qed.
End Start.

End StartExtras.

(** ** The further properties on concrete inputs *)
Module ExtraInstances.
Import Mcp IntegerNumbers Samples MoreSamples.

(** X1 on the message "hello". *)
Lemma echo_truthy_verbatim_witness :
  Js.truthy (argument "message" (echo_request "echo" "hello")) = true
  /\ Echo.callTool (echo_request "echo" "hello") fresh
     = (Eff.Returned
          {| content := [ {| type := "text"; text := Js.JStr "hello" |} ] |},
        fresh).
Proof.
  split; [reflexivity|].
  exact (EchoExtras.echo_truthy_verbatim (echo_request "echo" "hello") fresh
           eq_refl).
Defined.

(** X3 on the message 7, a number. *)
Lemma gated_stringifies_message_witness :
  Js.truthy
    (argument "message"
       {| name := "echo";
          arguments := Some {[ "message" := Js.JNum 7%Z ]} |}) = true
  /\ GatedEcho.callTool accepting
       {| name := "echo"; arguments := Some {[ "message" := Js.JNum 7%Z ]} |}
       fresh
     = (Eff.Returned
          {| content :=
               [ {| type := "text";
                    text :=
                      Js.JStr "Message from 0xA11ce (balance: 5): 7" |} ] |},
        fresh).
Proof.
  split; [reflexivity|].
  exact (EchoExtras.gated_stringifies_message accepting
           {| name := "echo";
              arguments := Some {[ "message" := Js.JNum 7%Z ]} |}
           fresh _ fresh eq_refl eq_refl).
Defined.

(** X4 on an environment with a stray variable and the empty one. *)
Lemma createServer_reads_three_variables_witness :
  stray_env !! "RPC_URL" = (∅ : gmap string string) !! "RPC_URL"
  /\ GatedEcho.createServer createPublicClient createTokenGateVerifier
       stray_env fresh
     = GatedEcho.createServer createPublicClient createTokenGateVerifier
         ∅ fresh.
Proof.
  assert (H1 : stray_env !! "RPC_URL"
               = (∅ : gmap string string) !! "RPC_URL") by reflexivity.
  assert (H2 : stray_env !! "STRAWBERRY_NETWORK_ID"
               = (∅ : gmap string string) !! "STRAWBERRY_NETWORK_ID")
    by reflexivity.
  assert (H3 : stray_env !! "LOCALHOST_TOKEN"
               = (∅ : gmap string string) !! "LOCALHOST_TOKEN")
    by reflexivity.
  split; [exact H1|].
  exact (EchoExtras.createServer_reads_three_variables createPublicClient
           createTokenGateVerifier stray_env ∅ fresh H1 H2 H3).
Defined.

(** X5 on an environment whose three variables are empty strings. *)
Lemma empty_variable_defaults_witness :
  Trace.unset blank_env "RPC_URL"
  /\ GatedEcho.transport (GatedEcho.clientConfig blank_env)
     = "https://sepolia.base.org"
  /\ GatedEcho.chainId
       (GatedEcho.domain (GatedEcho.verifierOptions (Num:=Z) blank_env))
     = 1%Z
  /\ GatedEcho.tokenAddress (GatedEcho.verifierOptions (Num:=Z) blank_env)
     = Some "".
Proof.
  assert (H1 : Trace.unset blank_env "RPC_URL") by (right; reflexivity).
  assert (H2 : Trace.unset blank_env "STRAWBERRY_NETWORK_ID")
    by (right; reflexivity).
  assert (H3 : blank_env !! "LOCALHOST_TOKEN" = Some "") by reflexivity.
  destruct (EchoExtras.empty_variable_defaults (Num:=Z) blank_env)
    as (Hrpc & Hid & Htoken).
  split; [exact H1|]. split; [exact (Hrpc H1)|].
  split; [exact (Hid H2) | exact (Htoken "" H3)].
Defined.

(** X6 with a verifier constructor that throws. *)
Lemma createServer_logs_before_verifier_witness :
  length
    (Node.console
       (GatedEcho.createServer createPublicClient
          (fun _ _ => Eff.Threw (Node.Error "no token address")) ∅ fresh).2)
  = 1
  /\ (GatedEcho.createServer createPublicClient
        (fun _ _ => Eff.Threw (Node.Error "no token address")) ∅ fresh).1
     = Eff.Threw (Node.Error "no token address").
Proof.
  destruct (EchoExtras.createServer_logs_before_verifier createPublicClient
              (fun _ _ => Eff.Threw (Node.Error "no token address")) ∅ fresh)
    as [_ Hlog].
  destruct (Hlog (GatedEcho.clientConfig ∅) eq_refl)
    as [(Hconsole & _ & _) Hthrow].
  split; [by rewrite Hconsole | exact (Hthrow _ eq_refl)].
Defined.

(** X9 on Topeka's coordinates with both endpoints up. *)
Lemma forecast_success_text_witness :
  Weather.getForecastForCoordinates points_up forecast_up 39%Z 95%Z fresh
  = (Eff.Returned
       (Weather.text_response
          ("Forecast for 39, 95:" +:+ Weather.nl +:+ Weather.nl
           +:+ Weather.format_period tonight)),
     Trace.after_fetch "https://api.weather.gov/gridpoints/TOP/31,80/forecast"
       (Trace.after_fetch "https://api.weather.gov/points/39.0000,95.0000"
          fresh))
  /\ Js.includes
       ("Forecast for 39, 95:" +:+ Weather.nl +:+ Weather.nl
        +:+ Weather.format_period tonight)
       (Weather.format_period tonight) = true.
Proof.
  assert (Hne : [tonight] <> []) by discriminate.
  destruct (WeatherExtras.forecast_success_text points_up forecast_up
              39%Z 95%Z fresh _ _ _ _ _ [tonight]
              eq_refl eq_refl eq_refl eq_refl eq_refl eq_refl eq_refl
              eq_refl eq_refl Hne) as [Htext Hall].
  split; [exact Htext|].
  exact (Hall tonight (list_elem_of_here _ _)).
Defined.

(** X10 on a forecast body without properties. *)
Lemma no_periods_text_witness :
  Weather.getForecastForCoordinates points_up forecast_empty 39%Z 95%Z fresh
  = (Eff.Returned (Weather.text_response "No forecast periods available"),
     Trace.after_fetch "https://api.weather.gov/gridpoints/TOP/31,80/forecast"
       (Trace.after_fetch "https://api.weather.gov/points/39.0000,95.0000"
          fresh)).
Proof.
  exact (WeatherExtras.no_periods_text points_up forecast_empty
           39%Z 95%Z fresh _ _ _ _ _
           eq_refl eq_refl eq_refl eq_refl eq_refl eq_refl eq_refl eq_refl
           (or_introl eq_refl)).
Defined.

(** X11 on a grid point body whose forecast URL is empty. *)
Lemma no_forecast_url_text_witness :
  Weather.getForecastForCoordinates points_without_forecast forecast_up
    39%Z 95%Z fresh
  = (Eff.Returned
       (Weather.text_response
          "Failed to get forecast URL from grid point data"),
     Trace.after_fetch "https://api.weather.gov/points/39.0000,95.0000"
       fresh).
Proof.
  exact (WeatherExtras.no_forecast_url_text points_without_forecast
           forecast_up 39%Z 95%Z fresh _ _ eq_refl eq_refl eq_refl
           (or_intror eq_refl)).
Defined.

(** X12 on a grid point answer whose body is null. *)
Lemma null_body_not_logged_witness :
  Node.console
    (Weather.getForecastForCoordinates null_body forecast_up 39%Z 95%Z
       fresh).2
  = []
  /\ (Weather.getForecastForCoordinates null_body forecast_up 39%Z 95%Z
        fresh).1
     = Eff.Returned
         (Weather.text_response
            "Failed to retrieve grid point data for coordinates: 39, 95. This location may not be supported by the NWS API (only US locations are supported).").
Proof.
  pose proof (WeatherExtras.null_body_not_logged null_body forecast_up
                39%Z 95%Z fresh _ eq_refl eq_refl eq_refl) as Hnull.
  split; by rewrite Hnull.
Defined.

(** X13 on a period of zero degrees. *)
Lemma falsy_temperature_unknown_witness :
  Weather.temperature freezing = Some 0%Z
  /\ Js.num_falsy 0%Z = true
  /\ Weather.format_period freezing
     = Weather.format_period (Trace.without_temperature freezing)
  /\ Js.includes (Weather.format_period freezing) "Temperature: Unknown"
     = true.
Proof.
  split; [reflexivity|]. split; [reflexivity|].
  exact (WeatherExtras.falsy_temperature_unknown freezing 0%Z
           eq_refl eq_refl).
Defined.

(** X14 on a geocoder that answers with one place. *)
Lemma geocode_first_result_witness :
  Weather.geocodeLocation geocoder_up encode "Topeka" fresh
  = (Eff.Returned
       (Some
          {| Weather.lat := "39";
             Weather.lon := "95";
             Weather.display_name := "Topeka, Kansas" |}),
     Trace.after_fetch (Weather.geocode_url "Topeka") fresh).
Proof.
  exact (HandlerExtras.geocode_first_result geocoder_up encode
           "Topeka" "Topeka" fresh _ _ eq_refl eq_refl eq_refl eq_refl).
Defined.

(** X15 with an encoder that throws "URI malformed". *)
Lemma encoder_throw_answered_witness :
  Weather.callTool points_up forecast_up geocoder_up parse_forecast
    parse_location encode_fails (by_name_request "Topeka") fresh
  = (Eff.Returned (Weather.text_response "Error: URI malformed"), fresh).
Proof.
  exact (proj2
           (HandlerExtras.encoder_throw_answered points_up forecast_up
              geocoder_up parse_forecast parse_location encode_fails
              (by_name_request "Topeka") "Topeka" "URI malformed" fresh
              eq_refl eq_refl eq_refl)).
Defined.

(** X16 on Topeka with every endpoint up. *)
Lemma by_name_prepends_location_witness :
  exists t p',
    Weather.getForecastForCoordinates points_up forecast_up 39%Z 95%Z
      (Trace.after_fetch (Weather.geocode_url "Topeka") fresh)
    = (Eff.Returned (Weather.text_response t), p')
    /\ Weather.callTool points_up forecast_up geocoder_up parse_forecast
         parse_location encode (by_name_request "Topeka") fresh
       = (Eff.Returned
            (Weather.text_response
               ("Location: Topeka, Kansas" +:+ Weather.nl +:+ Weather.nl
                +:+ t)),
          p').
Proof.
  exact (HandlerExtras.by_name_prepends_location points_up forecast_up
           geocoder_up parse_forecast parse_location encode
           (by_name_request "Topeka") "Topeka" "Topeka" fresh _ _ []
           eq_refl eq_refl eq_refl eq_refl eq_refl eq_refl).
Defined.

(** X17 on the coordinates 39, 95. *)
Lemma get_forecast_delegates_witness :
  parse_forecast (arguments (coordinates_request 39 95))
  = Eff.Returned (39%Z, 95%Z)
  /\ Weather.callTool points_up forecast_up geocoder_up parse_forecast
       parse_location encode (coordinates_request 39 95) fresh
     = Weather.getForecastForCoordinates points_up forecast_up 39%Z 95%Z
         fresh.
Proof.
  assert (Hparse : parse_forecast (arguments (coordinates_request 39 95))
                   = Eff.Returned (39%Z, 95%Z)) by reflexivity.
  split; [exact Hparse|].
  exact (HandlerExtras.get_forecast_delegates points_up forecast_up
           geocoder_up parse_forecast parse_location encode
           (coordinates_request 39 95) 39%Z 95%Z fresh eq_refl Hparse).
Defined.

(** X18 on a get-forecast call without arguments. *)
Lemma refused_arguments_answered_witness :
  Weather.callTool points_up forecast_up geocoder_up parse_forecast
    parse_location encode
    {| name := "get-forecast"; arguments := Some ∅ |} fresh
  = (Eff.Returned
       (Weather.text_response "Invalid arguments: latitude: Required"),
     fresh).
Proof.
  assert (Hparse :
            parse_forecast (Some ∅)
            = Eff.Threw
                (Node.ErrorObj "invalid"
                   (Some [ {| Node.path := [Node.Key "latitude"];
                              Node.issue_message := "Required" |} ])))
    by reflexivity.
  exact (HandlerExtras.refused_arguments_answered points_up forecast_up
           geocoder_up parse_forecast parse_location encode
           {| name := "get-forecast"; arguments := Some ∅ |}
           "invalid" _ fresh (or_introl (conj eq_refl Hparse))).
Defined.

(** X19 on the weather program with port 3001 free and a library that
    announces the port. *)
Lemma started_logs_readiness_witness :
  Startup.starts (step_ok tt) step_ok (fun _ _ => step_ok tt)
    (fun _ _ => None) (step_ok 3001%Z) Servers.WeatherServer = true
  /\ Startup.node (fun _ _ => None) print_and_exit
       (Startup.program (step_ok tt) step_ok (fun _ _ => step_ok tt)
          library_lines (step_ok 3001%Z) Servers.WeatherServer) fresh
     = {| Node.console :=
            [ {| Node.stream := Node.Stdout;
                 Node.args := [Node.LStr "Server running on port 3001"] |};
              {| Node.stream := Node.Stderr;
                 Node.args :=
                   [Node.LStr
                      "Weather MCP Server running on http://localhost:3001"]
              |} ];
          Node.exit_code := None;
          Node.fetched := [] |}.
Proof.
  split; [reflexivity|].
  exact (StartExtras.started_logs_readiness (step_ok tt) step_ok
           (fun _ _ => step_ok tt) library_lines (fun _ _ => None)
           (step_ok 3001%Z) print_and_exit Servers.WeatherServer fresh
           tt 3001%Z eq_refl eq_refl eq_refl).
Defined.

(** X20 on the weather program when no port is free. *)
Lemma weather_start_failure_is_fatal_witness :
  Startup.node port_taken print_and_exit
    (Startup.program (step_ok tt) step_ok (fun _ _ => step_ok tt)
       library_lines (step_throws "No available ports found")
       Servers.WeatherServer) fresh
  = Trace.after_fatal (Node.Error "No available ports found") fresh.
Proof.
  exact (StartExtras.weather_start_failure_is_fatal (step_ok tt) step_ok
           (fun _ _ => step_ok tt) library_lines port_taken
           (step_throws "No available ports found") print_and_exit
           (Node.Error "No available ports found") fresh eq_refl).
Defined.

(** X21 on a call [app.listen] that throws. *)
Lemma echo_start_failures_witness :
  Startup.node (fun _ _ => None) print_and_exit
    (Startup.program (step_ok tt) step_ok
       (fun _ _ => step_throws "listen failed") library_lines
       (step_ok 3001%Z) Servers.EchoServer) fresh
  = Trace.after_fatal (Node.Error "listen failed") fresh
  /\ Startup.node (fun _ _ => None) print_and_exit
       (Startup.program (step_ok tt) step_ok
          (fun _ _ => step_throws "listen failed") library_lines
          (step_ok 3001%Z) Servers.GatedServer) fresh
     = print_and_exit (Node.Error "listen failed") fresh.
Proof.
  destruct (StartExtras.echo_start_failures (step_ok tt) step_ok
              (fun _ _ => step_throws "listen failed") library_lines
              (fun _ _ => None)
              (step_ok 3001%Z) print_and_exit
              (Node.Error "listen failed") fresh)
    as (_ & _ & Hlisten).
  exact (Hlisten tt eq_refl eq_refl eq_refl).
Defined.

End ExtraInstances.
